(** * macos_lsusb: the parser and formatter of [macos_lsusb.py]

    A shallow embedding of the report parser ([parse], [parse_bus],
    [parse_dev]), of the tree it builds ([USB], [USBBus], [USBDevice]) and of
    the formatter (the [__str__] methods), with the properties of the
    specification stated and proved about them.

    Conventions of the model.
    - A Python [str] is a [string]; its characters are read as the code points
      0..255.  Text outside that range is not modelled.
    - A [dict] from [str] to [str] is a [gmap string string].
    - The mutable line queue [text] is threaded through the parser: every
      parsing function returns the queue it leaves behind.
    - An exception is a value [Raise e] of the [outcome] type.  The [while]
      loops that re-read a pushed-back line run on a step budget; [Fuel] is
      the outcome of an exhausted budget, and the budget the entry points
      hand out is shown to be always sufficient.
    - Integers are unbounded, and [int] and [format] convert them with the
      interpreter's limit on decimal conversions (4300 digits by default,
      from version 3.11 on) switched off.  The statements that tell when
      formatting succeeds or fails are made for numbers within that limit
      ([Limit]), where the interpreter behaves the same in either setting. *)

From Stdlib Require Import ZArith NArith Ascii String List Lia Bool.
From Stdlib Require Import DecimalString HexadecimalString DecimalPos.
From stdpp Require Import gmap strings list fin_maps.

(** ** Outcomes: a value, a raised exception, or an exhausted step budget *)

Inductive exn := AssertionError | ValueError.

Inductive outcome (A : Type) : Type :=
| Ok (a : A)
| Raise (e : exn)
| Fuel.

Arguments Ok {A} a.
Arguments Raise {A} e.
Arguments Fuel {A}.

Definition bind {A B : Type} (m : outcome A) (k : A -> outcome B) : outcome B :=
  match m with
  | Ok a => k a
  | Raise e => Raise e
  | Fuel => Fuel
  end.

Notation "'let*' x ':=' m 'in' k" := (bind m (fun x => k))
  (at level 10, x pattern, m at level 100, k at level 200, only parsing).

Fixpoint collect {A B : Type} (f : A -> outcome B) (l : list A) : outcome (list B) :=
  match l with
  | [] => Ok []
  | a :: l' => let* b := f a in let* bs := collect f l' in Ok (b :: bs)
  end.

(** ** Python string primitives *)

Module Py.

(** [str.isspace] on one character (code points 0..255): TAB..CR, FS..US,
    SPACE, NEL and NBSP.  This is the set [str.strip()] removes. *)
Definition isspace (c : ascii) : bool :=
  let n := N_of_ascii c in
  ((9 <=? n) && (n <=? 13) || (28 <=? n) && (n <=? 32)
   || (n =? 133) || (n =? 160))%N.

(** The characters [int()] skips around a literal: the C-locale blanks, and
    NEL and NBSP, which reach it translated to a space. *)
Definition int_space (c : ascii) : bool :=
  let n := N_of_ascii c in
  ((9 <=? n) && (n <=? 13) || (n =? 32) || (n =? 133) || (n =? 160))%N.

Definition is_empty (s : string) : bool :=
  match s with EmptyString => true | String _ _ => false end.

(** [s.lstrip(chars)], [s.rstrip(chars)] and [s.strip(chars)], the character
    set given as a predicate. *)
Fixpoint lstrip_by (p : ascii -> bool) (s : string) : string :=
  match s with
  | EmptyString => EmptyString
  | String c s' => if p c then lstrip_by p s' else s
  end.

Fixpoint rstrip_by (p : ascii -> bool) (s : string) : string :=
  match s with
  | EmptyString => EmptyString
  | String c s' =>
      let r := rstrip_by p s' in
      if is_empty r && p c then EmptyString else String c r
  end.

Definition strip_by (p : ascii -> bool) (s : string) : string :=
  lstrip_by p (rstrip_by p s).

(** [s.strip()] *)
Definition strip (s : string) : string := strip_by isspace s.

(** [c in chars] for a character [c] *)
Fixpoint mem (c : ascii) (chars : string) : bool :=
  match chars with
  | EmptyString => false
  | String d chars' => Ascii.eqb c d || mem c chars'
  end.

(** [s.strip(chars)] *)
Definition strip_chars (chars : string) (s : string) : string :=
  strip_by (fun c => mem c chars) s.

(** [s.endswith(suffix)] *)
Fixpoint endswith (s suffix : string) : bool :=
  String.eqb s suffix ||
  match s with
  | EmptyString => false
  | String _ s' => endswith s' suffix
  end.

(** The first occurrence of the one-character separator [sep]: the text
    before it and the text after it. *)
Fixpoint partition (sep : ascii) (s : string) : option (string * string) :=
  match s with
  | EmptyString => None
  | String c s' =>
      if Ascii.eqb c sep then Some (EmptyString, s')
      else match partition sep s' with
           | Some (a, b) => Some (String c a, b)
           | None => None
           end
  end.

(** [s.split(sep, 1)] for a one-character [sep] *)
Definition split1 (sep : ascii) (s : string) : list string :=
  match partition sep s with
  | Some (a, b) => [a; b]
  | None => [s]
  end.

(** [l[0]] and [l[-1]] on the result of a split, which is never empty *)
Definition first (l : list string) : string := hd EmptyString l.
Definition last (l : list string) : string := List.last l EmptyString.

(** [sep in s] for a one-character [sep] *)
Definition contains (sep : ascii) (s : string) : bool :=
  match partition sep s with Some _ => true | None => false end.

(** [s[n:]] *)
Fixpoint drop (n : nat) (s : string) : string :=
  match n, s with
  | O, _ => s
  | S _, EmptyString => EmptyString
  | S n', String _ s' => drop n' s'
  end.

(** [s[:-1]] *)
Fixpoint init (s : string) : string :=
  match s with
  | EmptyString => EmptyString
  | String c s' => if is_empty s' then EmptyString else String c (init s')
  end.

(** [sep.join(l)] *)
Fixpoint join (sep : string) (l : list string) : string :=
  match l with
  | [] => EmptyString
  | [s] => s
  | s :: l' => s +:+ sep +:+ join sep l'
  end.

(** *** [int(s, base)]

    The literal is: blanks, an optional sign, for base 16 an optional [0x] or
    [0X] (after which one underscore may follow), digits with single
    underscores between them, blanks.  Anything else raises [ValueError],
    here [None].  The interpreter's optional cap on the length of a decimal
    literal is taken to be off; [Limit] below tells where that matters. *)

Definition digit_value (c : ascii) : option N :=
  let n := N_of_ascii c in
  if ((48 <=? n) && (n <=? 57))%N then Some (n - 48)%N
  else if ((97 <=? n) && (n <=? 122))%N then Some (n - 87)%N
  else if ((65 <=? n) && (n <=? 90))%N then Some (n - 55)%N
  else None.

Definition digit_in (base : N) (c : ascii) : option N :=
  match digit_value c with
  | Some d => if (d <? base)%N then Some d else None
  | None => None
  end.

(** The digit scan: [acc] is the value read so far, [seen] whether a digit was
    read, [prev_us] whether the previous character was an underscore.  It stops
    at the first character that is neither a digit nor an underscore and
    returns the value with the unread rest. *)
Fixpoint scan_digits (base : N) (acc : N) (seen prev_us : bool) (s : string)
  : option (N * string) :=
  match s with
  | EmptyString => if seen && negb prev_us then Some (acc, EmptyString) else None
  | String c s' =>
      match digit_in base c with
      | Some d => scan_digits base (acc * base + d)%N true false s'
      | None =>
          if Ascii.eqb c "_" then
            if prev_us then None else scan_digits base acc seen true s'
          else if seen && negb prev_us then Some (acc, s) else None
      end
  end.

Definition skip_sign (s : string) : bool * string :=
  match s with
  | String "+" s' => (false, s')
  | String "-" s' => (true, s')
  | _ => (false, s)
  end.

Definition skip_prefix (base : N) (s : string) : string :=
  match s with
  | String "0" (String c s') =>
      if (base =? 16)%N && (Ascii.eqb c "x" || Ascii.eqb c "X") then
        match s' with
        | String "_" s'' => s''
        | _ => s'
        end
      else s
  | _ => s
  end.

Definition int (base : N) (s : string) : option Z :=
  let '(neg, s1) := skip_sign (lstrip_by int_space s) in
  let s2 := skip_prefix base s1 in
  match s2 with
  | String "_" _ => None
  | _ =>
      match scan_digits base 0 false false s2 with
      | Some (n, rest) =>
          if is_empty (lstrip_by int_space rest)
          then Some (if neg then - Z.of_N n else Z.of_N n)%Z
          else None
      | None => None
      end
  end.

(** *** [format] of an integer: ['{:0wd}'] and ['{:0wx}']

    Zero padding is sign-aware: the sign comes first and counts towards the
    width.  As for [int], the cap on the number of decimal digits is taken to
    be off. *)

Definition dec_digits (n : N) : string :=
  DecimalString.NilZero.string_of_uint (N.to_uint n).
Definition hex_digits (n : N) : string :=
  HexadecimalString.NilZero.string_of_uint (N.to_hex_uint n).

Fixpoint zeros (n : nat) : string :=
  match n with
  | O => EmptyString
  | S n' => String "0" (zeros n')
  end.

Definition zfill (width : nat) (s : string) : string :=
  zeros (width - String.length s) +:+ s.

Definition format_int (digits : N -> string) (width : nat) (z : Z) : string :=
  if (z <? 0)%Z then String "-" (zfill (width - 1) (digits (Z.abs_N z)))
  else zfill width (digits (Z.abs_N z)).

Definition format_d (width : nat) (z : Z) : string := format_int dec_digits width z.
Definition format_x (width : nat) (z : Z) : string := format_int hex_digits width z.

End Py.


(** ** The tree: [NamedAttributedObjectWithList] and its three subclasses *)

Abbreviation dict := (gmap string string).

(** [d.get(key, default)], [key in d] and [d.update(other)] *)
Definition get (d : dict) (key default : string) : string :=
  match d !! key with Some v => v | None => default end.

Definition has (d : dict) (key : string) : bool :=
  match d !! key with Some _ => true | None => false end.

Definition update (d other : dict) : dict := other ∪ d.

Definition DEFAULT_VENDOR : string := "Apple Inc.".

(** The line feed, ['\n']. *)
Definition nl : string := String "010" "".

Definition value_error {A : Type} (o : option A) : outcome A :=
  match o with
  | Some a => Ok a
  | None => Raise ValueError
  end.

Module USBDevice.

(** The back-reference [self.bus] is not stored: [__str__] is handed the
    owning bus's attributes as they are when it runs.  The child list of a
    device is never written nor read, and is left out. *)
Record t := { name : string; attr : dict }.

Definition __init__ (name : string) : t := {| name := name; attr := ∅ |}.

Definition set (self : t) (k v : string) : t :=
  {| name := name self; attr := <[k := v]> (attr self) |}.

(** The local variables of [__str__] at its [return]. *)
Record fields := {
  busId : string; devId : string; vndId : string; prdId : string;
  mfrNm : string; locId : string; serNr : string }.

(** The table of host-controller drivers, [dict(OHCI='8005', ...)]. *)
Definition controllers : dict :=
  <["OHCI" := "8005"]> (<["EHCI" := "8006"]> (<["XHCI" := "8007"]>
  (<["AppleUSBXHCISPTLP" := "8007"]> (<["AppleUSBXHCIAR" := "8007"]> ∅)))).

Definition locals (bus : dict) (self : t) : outcome fields :=
  let serNr := get (attr self) "Serial Number" "" in
  let serNr := if Py.is_empty serNr then "" else ", Serial: " +:+ serNr in
  if has (attr self) "Product ID" then
    let* b := value_error (Py.int 16 (Py.first (Py.split1 "/"
                (get (attr self) "Location ID" (get bus "Bus Number" "0" +:+ "/x"))))) in
    let busId := Py.format_d 3 (Z.shiftr b 24) in
    let* devId :=
      if has (attr self) "Location ID" && Py.contains "/" (get (attr self) "Location ID" "")
      then let* n := value_error (Py.int 10 (Py.strip (Py.last (Py.split1 "/"
                        (get (attr self) "Location ID" ""))))) in
           Ok (Py.format_x 3 n)
      else Ok "000" in
    let vndId := Py.drop 2 (Py.first (Py.split1 " " (get (attr self) "Vendor ID" "0x1d6b (xx)"))) in
    let prdId := Py.drop 2 (get (attr self) "Product ID" "0x????") in
    let mfrNm := get (attr self) "Manufacturer"
                   (Py.strip (Py.last (Py.split1 " "
                      (get (attr self) "Vendor ID" ("xxx (" +:+ DEFAULT_VENDOR +:+ ")"))))) in
    let locId := get (attr self) "Location ID" "0x00000000" in
    Ok {| busId := busId; devId := devId; vndId := vndId; prdId := prdId;
          mfrNm := mfrNm; locId := locId; serNr := serNr |}
  else
    let* b := value_error (Py.int 16 (get bus "Bus Number" "3e7")) in
    let busId := Py.format_d 3 b in
    let devId := "001" in
    let vndId := "05ac" in
    let prdId := Py.strip (get (attr self) "Host Controller Driver"
                             (get (attr self) "Product ID" "0x????")) in
    let prdId := get controllers prdId prdId in
    let mfrNm := "(" +:+ DEFAULT_VENDOR +:+ ")" in
    let* n := value_error (Py.int 10 busId) in
    let locId := "0x" +:+ Py.format_x 2 n +:+ "000000" in
    let serNr := ", " +:+ get (attr self) "Host Controller Driver" "???" in
    Ok {| busId := busId; devId := devId; vndId := vndId; prdId := prdId;
          mfrNm := mfrNm; locId := locId; serNr := serNr |}.

(** The manufacturer as displayed: [mfrNm.strip().strip('()').strip()] *)
Definition mfr (f : fields) : string :=
  Py.strip (Py.strip_chars "()" (Py.strip (mfrNm f))).

Definition render (self : t) (f : fields) : string :=
  "Bus " +:+ busId f +:+ " Device " +:+ devId f +:+ ": ID " +:+ vndId f +:+ ":"
  +:+ prdId f +:+ " " +:+ mfr f +:+ " " +:+ name self +:+ serNr f.

Definition __str__ (bus : dict) (self : t) : outcome string :=
  let* f := locals bus self in Ok (render self f).

End USBDevice.

Module USBBus.

Record t := { name : string; attr : dict; list : Datatypes.list USBDevice.t }.

Definition __init__ (name : string) : t := {| name := name; attr := ∅; list := [] |}.

Definition set (self : t) (k v : string) : t :=
  {| name := name self; attr := <[k := v]> (attr self); list := list self |}.

(** The synthetic first child: [USBDevice(self, self.name)] with the bus's
    attributes, as they are now, copied into its own fresh dictionary. *)
Definition root_hub (self : t) : USBDevice.t :=
  let dev := USBDevice.__init__ (name self) in
  {| USBDevice.name := USBDevice.name dev;
     USBDevice.attr := update (USBDevice.attr dev) (attr self) |}.

(** [entry] is [None] for the call that only finalizes the bus. *)
Definition add (self : t) (entry : option USBDevice.t) : t :=
  let l := match list self with
           | [] => [root_hub self]
           | _ :: _ => list self
           end in
  let l := match entry with
           | Some dev => l ++ [dev]
           | None => l
           end in
  {| name := name self; attr := attr self; list := l |}.

(** [[str(dev) for dev in self.list]] *)
Definition lines (self : t) : outcome (Datatypes.list string) :=
  collect (USBDevice.__str__ (attr self)) (list self).

Definition __str__ (self : t) : outcome string :=
  let* lines := lines self in
  Ok (Py.join nl lines).

End USBBus.

Module USB.

(** The name of the root is [None] and is not read by [__str__]. *)
Record t := { attr : dict; list : Datatypes.list USBBus.t }.

Definition __init__ : t := {| attr := ∅; list := [] |}.

Definition set (self : t) (k v : string) : t :=
  {| attr := <[k := v]> (attr self); list := list self |}.

Definition add (self : t) (entry : USBBus.t) : t :=
  {| attr := attr self; list := list self ++ [entry] |}.

Definition __str__ (self : t) : outcome string :=
  let* blocks := collect USBBus.__str__ (list self) in
  Ok (Py.join nl blocks).

End USB.

(** ** The parser *)

(** [name, value = tuple(word.strip() for word in line.split(':', 1))] *)
Definition key_value (line : string) : outcome (string * string) :=
  match map Py.strip (Py.split1 ":" line) with
  | [name; value] => Ok (name, value)
  | _ => Raise ValueError
  end.

(** The loop of [parse_dev]; it ends at a line that ends in a colon, which it
    puts back, or with the queue. *)
Fixpoint parse_dev_loop (bus : USBBus.t) (dev : USBDevice.t) (text : list string)
  : outcome (USBBus.t * list string) :=
  match text with
  | [] => Ok (USBBus.add bus (Some dev), [])
  | l :: text =>
      let line := Py.strip l in
      if Py.endswith line ":" then Ok (USBBus.add bus (Some dev), line :: text)
      else
        let* (name, value) := key_value line in
        parse_dev_loop bus (USBDevice.set dev name value) text
  end.

Definition parse_dev (bus : USBBus.t) (name : string) (text : list string)
  : outcome (USBBus.t * list string) :=
  parse_dev_loop bus (USBDevice.__init__ name) text.

(** The loop of [parse_bus], on a budget of [n] iterations. *)
Fixpoint parse_bus_loop (n : nat) (sys : USB.t) (bus : USBBus.t) (text : list string)
  : outcome (USB.t * list string) :=
  match n with
  | O => Fuel
  | S n =>
      match text with
      | [] => Ok (USB.add sys (USBBus.add bus None), [])
      | l :: text =>
          let line := Py.strip l in
          if Py.endswith line "Bus:" then
            Ok (USB.add sys (USBBus.add bus None), line :: text)
          else if Py.endswith line ":" then
            let* (bus, text) := parse_dev bus (Py.init line) text in
            parse_bus_loop n sys bus text
          else
            let* (name, value) := key_value line in
            parse_bus_loop n sys (USBBus.set bus name value) text
      end
  end.

Definition parse_bus (sys : USB.t) (name : string) (text : list string)
  : outcome (USB.t * list string) :=
  parse_bus_loop (S (length text)) sys (USBBus.__init__ name) text.

(** The loop of [parse], on a budget of [n] iterations. *)
Fixpoint parse_loop (n : nat) (usb : USB.t) (text : list string)
  : outcome (USB.t * list string) :=
  match n with
  | O => Fuel
  | S n =>
      match text with
      | [] => Ok (usb, [])
      | l :: text =>
          let line := Py.strip l in
          if Py.endswith line "Bus:" then
            let* (usb, text) := parse_bus usb (Py.init line) text in
            parse_loop n usb text
          else
            let* (name, value) := key_value line in
            parse_loop n (USB.set usb name value) text
      end
  end.

(** [parse(text)] for a list [text]; the result comes with the queue as the
    call leaves it. *)
Definition parse (text : list string) : outcome (USB.t * list string) :=
  match text with
  | l :: text' =>
      if String.eqb l "USB:" then parse_loop (S (length text')) USB.__init__ text'
      else Raise AssertionError
  | [] => Raise AssertionError
  end.

(** The main block on a given list of lines, [print(parse(text))]: what it
    prints, and how it ends.  The way to the list, through [fetch] and [run],
    is in [program] below. *)
Definition main (text : list string) : list string * outcome unit :=
  match parse text with
  | Ok (usb, _) =>
      match USB.__str__ usb with
      | Ok s => ([s], Ok tt)
      | Raise e => ([], Raise e)
      | Fuel => ([], Fuel)
      end
  | Raise e => ([], Raise e)
  | Fuel => ([], Fuel)
  end.

(** The report of the module's documentation comment, as [fetch] hands it
    over: the lines from the anchor on, the empty ones left out. *)
Definition sample : list string := [
  "USB:";
  "    USB 3.0 Bus:";
  "      Host Controller Driver: AppleUSBXHCISPTLP";
  "      PCI Device ID: 0x9d2f";
  "      PCI Revision ID: 0x0021";
  "      PCI Vendor ID: 0x8086";
  "        Apple USB Ethernet Adapter:";
  "          Product ID: 0x1402";
  "          Vendor ID: 0x05ac (Apple Inc.)";
  "          Version: 0.01";
  "          Serial Number: 267DCA";
  "          Speed: Up to 480 Mb/sec";
  "          Manufacturer: Apple Inc.";
  "          Location ID: 0x14500000 / 4";
  "          Current Available (mA): 500";
  "          Current Required (mA): 250";
  "          Extra Operating Current (mA): 0";
  "        iBridge:";
  "          Product ID: 0x8600";
  "          Vendor ID: 0x05ac (Apple Inc.)";
  "          Version: 1.01";
  "          Manufacturer: Apple Inc.";
  "          Location ID: 0x14100000";
  "    USB 3.1 Bus:";
  "      Host Controller Driver: AppleUSBXHCIAR";
  "      PCI Device ID: 0x15d4";
  "      PCI Revision ID: 0x0002";
  "      PCI Vendor ID: 0x8086";
  "      Bus Number: 0x01";
  "    USB 3.1 Bus:";
  "      Host Controller Driver: AppleUSBXHCIAR";
  "      PCI Device ID: 0x15d4";
  "      PCI Revision ID: 0x0002";
  "      PCI Vendor ID: 0x8086";
  "      Bus Number: 0x00" ].


(** ** Notions the properties are stated with *)

(** The device lines of the whole tree, bus after bus. *)
Definition all_lines (usb : USB.t) : outcome (list string) :=
  let* ls := collect USBBus.lines (USB.list usb) in Ok (concat ls).

(** The names in a bus: its own and those of its children, in order. *)
Definition shape (bus : USBBus.t) : string * list string :=
  (USBBus.name bus, map USBDevice.name (USBBus.list bus)).

(** The names in the tree for a bus section of the report, given as the
    name of the bus and the names of its device sections: the first child is
    named after the bus. *)
Definition section_shape (sec : string * list string) : string * list string :=
  (fst sec, fst sec :: snd sec).

(** The names the children of [bus] have once something was added to it. *)
Definition first_names (bus : USBBus.t) : list string :=
  match USBBus.list bus with
  | [] => [USBBus.name bus]
  | l => map USBDevice.name l
  end.

(** The queue a parsing function leaves behind is empty or starts with the
    header it put back, already stripped. *)
Definition at_header (suffix : string) (text : list string) : Prop :=
  match text with
  | [] => True
  | h :: _ => Py.strip h = h /\ Py.endswith h suffix = true
  end.

(** The section structure of a report, read off its lines: a line that ends
    in ["Bus:"] opens a bus section, and inside a bus section a line that ends
    in a colon opens a device section.  A section is named by its header
    without the final colon. *)
Module Grammar.

Definition is_bus_header (l : string) : bool := Py.endswith (Py.strip l) "Bus:".
Definition is_header (l : string) : bool := Py.endswith (Py.strip l) ":".
Definition is_device_header (l : string) : bool :=
  is_header l && negb (is_bus_header l).

(** The lines from the first bus header on. *)
Fixpoint from_first_bus (text : list string) : list string :=
  match text with
  | [] => []
  | l :: text' => if is_bus_header l then text else from_first_bus text'
  end.

(** From the last line backwards: the device headers not yet under a bus
    header, and the bus sections completed so far. *)
Fixpoint sections_go (text : list string) : list string * list (string * list string) :=
  match text with
  | [] => ([], [])
  | l :: text =>
      let '(pending, done) := sections_go text in
      if is_bus_header l then ([], (Py.init (Py.strip l), pending) :: done)
      else if is_header l then (Py.init (Py.strip l) :: pending, done)
      else (pending, done)
  end.

(** The bus sections of the lines that follow the anchor, each with its
    device sections. *)
Definition sections (text : list string) : list (string * list string) :=
  snd (sections_go text).

Definition explicit_devices (text : list string) : nat :=
  sum_list_with (fun sec => length (snd sec)) (sections text).

Definition buses (text : list string) : nat := length (sections text).

Definition buses_without_devices (text : list string) : nat :=
  length (filter (fun sec => snd sec = []) (sections text)).

(** A line the parser can take in any position: a header, or a line with a
    colon to split at. *)
Definition splittable (l : string) : Prop :=
  is_header l || Py.contains ":" l = true.

End Grammar.

(** The calls a bus object receives between its creation and the end of its
    section: [set] and [add]. *)
Inductive bus_call :=
| CallSet (k v : string)
| CallAdd (entry : option USBDevice.t).

Definition is_set (c : bus_call) : Prop :=
  match c with CallSet _ _ => True | CallAdd _ => False end.

Definition call (bus : USBBus.t) (c : bus_call) : USBBus.t :=
  match c with
  | CallSet k v => USBBus.set bus k v
  | CallAdd entry => USBBus.add bus entry
  end.

Definition calls (bus : USBBus.t) (cs : list bus_call) : USBBus.t :=
  fold_left call cs bus.

(** A string that starts with a decimal digit. *)
Definition digit_first (s : string) : Prop :=
  match s with
  | EmptyString => False
  | String c _ => Py.mem c "0123456789" = true
  end.

(** The number of children in the whole tree. *)
Definition children (usb : USB.t) : nat :=
  sum_list_with (fun bus => length (USBBus.list bus)) (USB.list usb).

(** A bus whose first child is its root hub, the copy of its own name and
    attributes. *)
Definition rooted (bus : USBBus.t) : Prop :=
  hd_error (USBBus.list bus) = Some (USBBus.root_hub bus).

(** The tree and the output of a report that parses and prints. *)
Definition parsed (text : list string) : USB.t :=
  match parse text with
  | Ok (usb, _) => usb
  | _ => USB.__init__
  end.

Definition printed (text : list string) : string :=
  match USB.__str__ (parsed text) with
  | Ok s => s
  | _ => EmptyString
  end.

(** A report with one bus whose first child is a device section. *)
Definition one_device : list string :=
  ["USB:"; "A Bus:"; "Dev:"; "Product ID: 0x0001"].

(** Devices under a bus without attributes: the first device of the sample
    without its ["Manufacturer"] line, the same with slot 10, and a device
    without attributes. *)
Definition ethernet : USBDevice.t :=
  USBDevice.set (USBDevice.set (USBDevice.set (USBDevice.set
    (USBDevice.__init__ "Apple USB Ethernet Adapter")
    "Product ID" "0x1402") "Vendor ID" "0x05ac (Apple Inc.)")
    "Serial Number" "267DCA") "Location ID" "0x14500000 / 4".

Definition ethernet_slot_10 : USBDevice.t :=
  USBDevice.set ethernet "Location ID" "0x14500000 / 10".

Definition bare : USBDevice.t := USBDevice.__init__ "Dev".

(** The locals of a device that formats. *)
Definition the_locals (bus : dict) (dev : USBDevice.t) : USBDevice.fields :=
  match USBDevice.locals bus dev with
  | Ok f => f
  | _ => {| USBDevice.busId := ""; USBDevice.devId := ""; USBDevice.vndId := "";
            USBDevice.prdId := ""; USBDevice.mfrNm := ""; USBDevice.locId := "";
            USBDevice.serNr := "" |}
  end.

(** A report with a key/value line under a device section that follows the
    key/value line of the bus. *)
Definition late_key : list string :=
  ["USB:"; "X Bus:"; "A: 1"; "Dev:"; "B: 2"].

(** A report whose only bus has a ["Bus Number"] that is no number, and a
    device section without attributes. *)
Definition bad_bus_number : list string :=
  ["USB:"; "X Bus:"; "Bus Number: zz"; "Dev:"].

(** The root hub of the first bus of the sample, and the attributes of that
    bus. *)
Definition sample_bus : dict :=
  <["Host Controller Driver" := "AppleUSBXHCISPTLP"]> ∅.

Definition sample_hub : USBDevice.t :=
  USBDevice.set (USBDevice.__init__ "USB 3.0 Bus")
    "Host Controller Driver" "AppleUSBXHCISPTLP".

(** ** The specification's wording, where it is compared with the code *)

Module Spec.

(** The device slot read off the ["Location ID"] attribute: the text after
    the first slash, trimmed, read in [base] and written in hexadecimal; the
    literal ["000"] without the attribute or without a slash in it.  [None]
    when the text is no number in [base]. *)
Definition slot_read_in (base : N) (attr : dict) : option string :=
  match attr !! "Location ID" with
  | Some loc =>
      match Py.partition "/" loc with
      | Some (_, after) =>
          match Py.int base (Py.strip after) with
          | Some n => Some (Py.format_x 3 n)
          | None => None
          end
      | None => Some "000"
      end
  | None => Some "000"
  end.

(** As the specification words it, the text is read as hexadecimal. *)
Definition dev_slot : dict -> option string := slot_read_in 16.


(** The line count as the specification words it: the explicit devices, and
    one root hub for each bus that has none. *)
Definition line_count (text : list string) : nat :=
  Grammar.explicit_devices text + Grammar.buses_without_devices text.

(** The bus name as the specification words it: the trimmed text before the
    ["Bus:"] suffix. *)
Definition bus_name (l : string) : string :=
  let line := Py.strip l in
  Py.strip (String.substring 0 (String.length line - 4) line).

End Spec.

(** ** The tree of a report, read off its lines *)

(** The tree is described here without a queue and without a budget, from the
    last line backwards; [parse] is shown to build exactly this tree. *)
Module Report.

(** The key and the value of a line: the text before and after its first
    colon, both trimmed. *)
Definition entry (l : string) : string * string :=
  match Py.partition ":" (Py.strip l) with
  | Some (k, v) => (Py.strip k, Py.strip v)
  | None => (EmptyString, EmptyString)
  end.

(** The dictionary [d] after the lines are set on it in order. *)
Definition attrs_of (d : dict) (lines : list string) : dict :=
  fold_left (fun d l => <[fst (entry l) := snd (entry l)]> d) lines d.

(** The lines before the first bus header. *)
Fixpoint before_first_bus (text : list string) : list string :=
  match text with
  | [] => []
  | l :: text => if Grammar.is_bus_header l then [] else l :: before_first_bus text
  end.

(** From the last line backwards: the key/value lines not yet under a
    header, the devices not yet under a bus header, and the buses. *)
Fixpoint tree_go (text : list string)
  : list string * list USBDevice.t * list USBBus.t :=
  match text with
  | [] => ([], [], [])
  | l :: text =>
      let '(kvs, devs, buses) := tree_go text in
      let name := Py.init (Py.strip l) in
      if Grammar.is_bus_header l then
        let attr := attrs_of ∅ kvs in
        ([], [],
         {| USBBus.name := name; USBBus.attr := attr;
            USBBus.list := {| USBDevice.name := name; USBDevice.attr := attr |} :: devs |}
         :: buses)
      else if Grammar.is_header l then
        ([], {| USBDevice.name := name; USBDevice.attr := attrs_of ∅ kvs |} :: devs, buses)
      else (l :: kvs, devs, buses)
  end.

(** The tree of the lines that follow the anchor: what precedes the first bus
    header is set on the root, headers included. *)
Definition tree (text : list string) : USB.t :=
  {| USB.attr := attrs_of ∅ (before_first_bus text);
     USB.list := snd (tree_go text) |}.

End Report.

(** The devices handed to [add] by a sequence of calls, in order. *)
Definition entries (cs : list bus_call) : list USBDevice.t :=
  flat_map (fun c => match c with
                     | CallAdd (Some dev) => [dev]
                     | _ => []
                     end) cs.

(** ** The text source: [supported] and [fetch] *)

(** [run] hands back the standard output of the external program, or ends
    the process; [supported] and [fetch] are given here the text the two
    calls of [run] hand back, the list of data types and the report. *)

Definition DATA_TYPE : string := "SPUSBDataType".

(** The characters [str.splitlines] breaks at (code points 0..255): LF, VT,
    FF, CR, FS, GS, RS and NEL. *)
Definition is_break (c : ascii) : bool :=
  let n := N_of_ascii c in
  ((10 <=? n) && (n <=? 13) || (28 <=? n) && (n <=? 30) || (n =? 133))%N.

(** [s.splitlines()]; [after_cr] tells that the previous character was a CR,
    which takes a following LF with it. *)
Fixpoint splitlines_go (after_cr : bool) (s : string) : list string :=
  match s with
  | EmptyString => []
  | String c s' =>
      if after_cr && Ascii.eqb c "010" then splitlines_go false s'
      else if is_break c then EmptyString :: splitlines_go (Ascii.eqb c "013") s'
      else match splitlines_go false s' with
           | [] => [String c EmptyString]
           | l :: ls => String c l :: ls
           end
  end.

Definition splitlines (s : string) : list string := splitlines_go false s.

(** [supported()], on the list of data types. *)
Definition supported (listing : string) : bool :=
  0 <? length (List.filter (fun line => String.eqb (Py.strip line) DATA_TYPE)
                 (splitlines listing)).

(** [fetch()], on the list of data types and the report; [None] stands for
    the [NotImplementedError] it raises. *)
Definition fetch (listing report : string) : option (list string) :=
  if supported listing
  then Some (List.filter (fun i => negb (Py.is_empty i)) (splitlines (Py.strip report)))
  else None.

(** ** Lines of the output *)

(** The number of line feeds in a string, and a string without one. *)
Fixpoint newlines (s : string) : nat :=
  match s with
  | EmptyString => 0
  | String c s' => (if Ascii.eqb c "010" then 1 else 0) + newlines s'
  end.

Definition one_line (s : string) : Prop := Py.contains "010" s = false.

(** A dictionary, a device and a bus whose names and values hold no line
    feed. *)
Definition clean_dict (d : dict) : Prop := map_Forall (fun _ v => one_line v) d.

Definition clean_dev (dev : USBDevice.t) : Prop :=
  one_line (USBDevice.name dev) /\ clean_dict (USBDevice.attr dev).

Definition clean_bus (bus : USBBus.t) : Prop :=
  clean_dict (USBBus.attr bus) /\ Forall clean_dev (USBBus.list bus).

(** ** The queue the parsing functions leave *)

(** The lines from the first header on, and a queue with its first line
    trimmed, as it is after the line was read and put back. *)
Fixpoint from_first_header (text : list string) : list string :=
  match text with
  | [] => []
  | l :: text' => if Grammar.is_header l then text else from_first_header text'
  end.

Definition put_back (text : list string) : list string :=
  match text with
  | [] => []
  | l :: text' => Py.strip l :: text'
  end.

(** A key/value line of a section: it contains a colon and does not end in
    one. *)
Definition key_value_line (l : string) : Prop :=
  Grammar.is_header l = false /\ Py.contains ":" l = true.

(** ** The interpreter's limit on decimal conversions

    From version 3.11 on, the interpreter in its default setting raises
    [ValueError] when [int] is given a literal of more than [max_str_digits]
    digits in base 10, and when an integer of more than [max_str_digits]
    decimal digits is written in base 10, as ['{:03d}'] does; reading and
    writing in base 16 are not limited.  [Py.int] and [Py.format_d] compute
    with the limit switched off, so [USBDevice.__str__] here agrees with the
    interpreter in its default setting on the devices whose numbers are
    [within] the limit, and says nothing of the others. *)
Module Limit.

Definition max_str_digits : nat := 4300.

(** The number of decimal digits of an integer, as [format] counts them. *)
Definition decimal_digits (z : Z) : nat :=
  String.length (Py.dec_digits (Z.abs_N z)).

(** The number of decimal digits in a text, as [int] counts them. *)
Fixpoint literal_digits (s : string) : nat :=
  match s with
  | EmptyString => 0
  | String c s' =>
      (match Py.digit_in 10 c with Some _ => 1 | None => 0 end) + literal_digits s'
  end.

(** The integers [__str__] writes in base 10 and the text it reads in base
    10 stay within the limit: the bus number, and for a device with a
    ["Product ID"] the text after the slash of its ["Location ID"]. *)
Definition within (bus : dict) (dev : USBDevice.t) : bool :=
  let attr := USBDevice.attr dev in
  if has attr "Product ID" then
    match Py.int 16 (Py.first (Py.split1 "/"
            (get attr "Location ID" (get bus "Bus Number" "0" +:+ "/x")))) with
    | Some b => decimal_digits (Z.shiftr b 24) <=? max_str_digits
    | None => true
    end
    && (if has attr "Location ID" && Py.contains "/" (get attr "Location ID" "")
        then literal_digits (Py.strip (Py.last (Py.split1 "/"
                               (get attr "Location ID" "")))) <=? max_str_digits
        else true)
  else
    match Py.int 16 (get bus "Bus Number" "3e7") with
    | Some b => decimal_digits b <=? max_str_digits
    | None => true
    end.

End Limit.

(** ** The program, from the two texts [run] hands back

    [run] either hands back the standard output of the external program or
    ends the process itself (after a message on the standard error stream
    when the program cannot be started, after an ["Error"] line on the
    standard output when it returns a non-zero code).  [program] is the main
    block once both calls of [run] have handed back their text: [fetch], then
    [parse], then [print]. *)
Inductive ending :=
| Done
| Failed (e : exn)
| NotImplementedError
| OutOfFuel.

Definition program (listing report : string) : list string * ending :=
  match fetch listing report with
  | None => ([], NotImplementedError)
  | Some text =>
      match main text with
      | (out, Ok _) => (out, Done)
      | (out, Raise e) => (out, Failed e)
      | (out, Fuel) => (out, OutOfFuel)
      end
  end.

(** ** Facts about the string primitives *)

Section StripFacts.
Variable p : ascii -> bool.

Lemma lstrip_by_idem s : Py.lstrip_by p (Py.lstrip_by p s) = Py.lstrip_by p s.
Proof.
  induction s as [|c s IH]; simpl; [reflexivity|].
  destruct (p c) eqn:E; [exact IH|]. simpl. now rewrite E.
Qed.

Lemma rstrip_by_idem s : Py.rstrip_by p (Py.rstrip_by p s) = Py.rstrip_by p s.
Proof.
  induction s as [|c s IH]; simpl; [reflexivity|].
  destruct (Py.is_empty (Py.rstrip_by p s) && p c) eqn:E; [reflexivity|].
  simpl. now rewrite IH, E.
Qed.

(** Stripping on the left keeps a string stripped on the right. *)
Lemma rstrip_by_lstrip_by s :
  Py.rstrip_by p s = s -> Py.rstrip_by p (Py.lstrip_by p s) = Py.lstrip_by p s.
Proof.
  induction s as [|c s IH]; simpl; [reflexivity|].
  destruct (Py.is_empty (Py.rstrip_by p s) && p c) eqn:E; [discriminate|].
  intros H. injection H as H.
  destruct (p c) eqn:Ec; [now apply IH|].
  simpl. now rewrite H, Ec, andb_false_r.
Qed.

Lemma strip_by_idem s : Py.strip_by p (Py.strip_by p s) = Py.strip_by p s.
Proof.
  unfold Py.strip_by.
  rewrite rstrip_by_lstrip_by by apply rstrip_by_idem.
  apply lstrip_by_idem.
Qed.

(** A separator that is not stripped is found after stripping exactly when
    it is found before. *)
Variable sep : ascii.
Hypothesis sep_kept : p sep = false.

Lemma stripped_not_sep c : p c = true -> Ascii.eqb c sep = false.
Proof.
  intros Hc. destruct (Ascii.eqb_spec c sep) as [->|]; [congruence|reflexivity].
Qed.

Lemma contains_cons c s :
  Py.contains sep (String c s) = Ascii.eqb c sep || Py.contains sep s.
Proof.
  unfold Py.contains. simpl. destruct (Ascii.eqb c sep); [reflexivity|].
  now destruct (Py.partition sep s) as [[a b]|].
Qed.

Lemma contains_lstrip_by s : Py.contains sep (Py.lstrip_by p s) = Py.contains sep s.
Proof.
  induction s as [|c s IH]; [reflexivity|]. simpl.
  destruct (p c) eqn:E; [|reflexivity].
  now rewrite contains_cons, (stripped_not_sep _ E), IH.
Qed.

Lemma contains_rstrip_by s : Py.contains sep (Py.rstrip_by p s) = Py.contains sep s.
Proof.
  induction s as [|c s IH]; [reflexivity|]. simpl.
  rewrite contains_cons, <- IH.
  destruct (Py.rstrip_by p s) as [|d r]; simpl.
  - destruct (p c) eqn:E; [|now rewrite contains_cons].
    now rewrite (stripped_not_sep _ E).
  - now rewrite contains_cons.
Qed.

Lemma contains_strip_by s : Py.contains sep (Py.strip_by p s) = Py.contains sep s.
Proof. unfold Py.strip_by. now rewrite contains_lstrip_by, contains_rstrip_by. Qed.
End StripFacts.

Lemma strip_idem s : Py.strip (Py.strip s) = Py.strip s.
Proof. apply strip_by_idem. Qed.

Lemma contains_colon_strip s : Py.contains ":" (Py.strip s) = Py.contains ":" s.
Proof. apply contains_strip_by. reflexivity. Qed.

Lemma endswith_cons c s suffix :
  Py.endswith (String c s) suffix = String.eqb (String c s) suffix || Py.endswith s suffix.
Proof. reflexivity. Qed.

(** A line that ends in a colon contains one, and a line that ends in
    ["Bus:"] ends in a colon. *)
Lemma endswith_colon_contains s : Py.endswith s ":" = true -> Py.contains ":" s = true.
Proof.
  induction s as [|c s IH]; [discriminate|].
  rewrite endswith_cons, contains_cons, orb_true_iff. intros [H|H].
  - apply String.eqb_eq in H. injection H as -> _. reflexivity.
  - rewrite (IH H). apply orb_true_r.
Qed.

Lemma endswith_Bus_colon s : Py.endswith s "Bus:" = true -> Py.endswith s ":" = true.
Proof.
  induction s as [|c s IH]; [discriminate|].
  rewrite !endswith_cons, !orb_true_iff. intros [H|H].
  - apply String.eqb_eq in H. injection H as -> ->. right. reflexivity.
  - right. exact (IH H).
Qed.

Lemma key_value_contains line :
  Py.contains ":" line = true -> exists kv, key_value line = Ok kv.
Proof.
  unfold Py.contains, key_value, Py.split1.
  destruct (Py.partition ":" line) as [[a b]|]; [|discriminate].
  intros _. simpl. eauto.
Qed.

Lemma key_value_raises line e : key_value line = Raise e -> e = ValueError.
Proof.
  unfold key_value.
  destruct (map Py.strip (Py.split1 ":" line)) as [|a [|b [|c l]]]; congruence.
Qed.

Lemma key_value_fuel line : key_value line <> Fuel.
Proof.
  unfold key_value.
  destruct (map Py.strip (Py.split1 ":" line)) as [|a [|b [|c l]]]; congruence.
Qed.

(** Values of the primitives on literal arguments. *)
Example int_16_values :
  map (Py.int 16)
    ["3e7"; "0x14500000 "; " 0x01"; "0X_f"; "-0xf"; "1_000"; "0b1";
     "zz"; ""; "0x"; "f_"; "f__f"; "_f"; "- 1"; "0x 1"]
  = [Some 999; Some 340787200; Some 1; Some 15; Some (-15); Some 4096; Some 177;
     None; None; None; None; None; None; None; None]%Z.
Proof. reflexivity. Qed.

Example int_10_values :
  map (Py.int 10) ["4"; "10"; "001"; "-01"; "+7"; "1_000"; "0x1"; "a"; ""; "1 2"]
  = [Some 4; Some 10; Some 1; Some (-1); Some 7; Some 1000; None; None; None; None]%Z.
Proof. reflexivity. Qed.

Example format_values :
  (Py.format_d 3 20, Py.format_d 3 (-1), Py.format_d 3 1000,
   Py.format_x 3 10, Py.format_x 3 (-10), Py.format_x 3 4096, Py.format_x 2 255)
  = ("020", "-01", "1000", "00a", "-0a", "1000", "ff").
Proof. reflexivity. Qed.

Example split_values :
  (Py.split1 ":" "a:b:c", Py.split1 ":" "abc", Py.split1 ":" ":",
   Py.init "USB 3.1 Bus:", Py.init "", Py.drop 2 "0x05ac", Py.drop 2 "x")
  = (["a"; "b:c"], ["abc"], [""; ""], "USB 3.1 Bus", "", "05ac", "").
Proof. reflexivity. Qed.

Example strip_values :
  (Py.strip "  a b  ", Py.strip_chars "()" "(( x ))",
   Py.strip (Py.strip_chars "()" (Py.strip " (Apple Inc.) ")),
   Py.endswith "USB 3.1 Bus:" "Bus:", Py.endswith "us:" "Bus:", Py.endswith "" "")
  = ("a b", " x ", "Apple Inc.", true, false, true).
Proof. reflexivity. Qed.

(** The shift that takes the bus number out of a location: [0x14500000 >> 24]
    is [0x14], printed ["020"]. *)
Example bus_number_value :
  Py.format_d 3 (Z.shiftr 340787200 24) = "020".
Proof. reflexivity. Qed.

(** ** Facts about the parser *)

Lemma not_header_not_bus l :
  Grammar.is_header l = false -> Grammar.is_bus_header l = false.
Proof.
  unfold Grammar.is_header, Grammar.is_bus_header. intros H.
  destruct (Py.endswith (Py.strip l) "Bus:") eqn:E; [|reflexivity].
  apply endswith_Bus_colon in E. congruence.
Qed.

Lemma sections_go_strip l text :
  Grammar.sections_go (Py.strip l :: text) = Grammar.sections_go (l :: text).
Proof.
  simpl. unfold Grammar.is_bus_header, Grammar.is_header. now rewrite !strip_idem.
Qed.

Lemma sections_go_at_bus text :
  at_header "Bus:" text -> fst (Grammar.sections_go text) = [].
Proof.
  destruct text as [|h t]; [reflexivity|]. intros [Hs He]. simpl.
  unfold Grammar.is_bus_header. rewrite Hs, He.
  now destruct (Grammar.sections_go t).
Qed.

Lemma first_names_add bus entry :
  map USBDevice.name (USBBus.list (USBBus.add bus entry)) =
  first_names bus ++ match entry with Some dev => [USBDevice.name dev] | None => [] end.
Proof.
  unfold first_names, USBBus.add. simpl.
  destruct (USBBus.list bus) as [|d l], entry as [dev|]; simpl;
    rewrite ?map_app, ?app_nil_r; reflexivity.
Qed.

Lemma first_names_added bus entry :
  first_names (USBBus.add bus entry) =
  map USBDevice.name (USBBus.list (USBBus.add bus entry)).
Proof.
  unfold first_names, USBBus.add. simpl.
  destruct (USBBus.list bus) as [|d l], entry as [dev|]; reflexivity.
Qed.

(** [parse_dev]: it always returns or raises [ValueError]; the device it
    attaches has the name it was given, and only key/value lines are gone
    from the queue. *)
Lemma parse_dev_loop_spec text : forall bus dev,
  match parse_dev_loop bus dev text with
  | Ok (bus', text') =>
      (exists dev', bus' = USBBus.add bus (Some dev')
                    /\ USBDevice.name dev' = USBDevice.name dev)
      /\ Grammar.sections_go text' = Grammar.sections_go text
      /\ length text' <= length text
      /\ at_header ":" text'
  | Raise e => e = ValueError
  | Fuel => False
  end.
Proof.
  induction text as [|l text IH]; intros bus dev.
  - simpl. repeat split; eauto.
  - cbn [parse_dev_loop].
    destruct (Py.endswith (Py.strip l) ":") eqn:E.
    + split; [eauto|]. split; [apply sections_go_strip|]. split; [reflexivity|].
      simpl. now rewrite strip_idem.
    + destruct (key_value (Py.strip l)) as [[k v]|e|] eqn:K; simpl.
      * specialize (IH bus (USBDevice.set dev k v)).
        destruct (parse_dev_loop bus (USBDevice.set dev k v) text) as [[bus' text']|e|];
          [|exact IH..].
        destruct IH as ((dev' & -> & Hn) & Hs & Hl & Hh).
        split; [eauto|]. split; [|split; [simpl; lia|exact Hh]].
        rewrite Hs. simpl. unfold Grammar.is_header.
        rewrite (not_header_not_bus l E), E. now destruct (Grammar.sections_go text).
      * eauto using key_value_raises.
      * now apply key_value_fuel in K.
Qed.

(** [parse_bus]: on a budget above the length of the queue it returns or
    raises [ValueError]; the bus it attaches keeps its name and gains one child
    per device header up to the next bus header, which is left in the queue. *)
Lemma parse_bus_loop_spec n : forall sys bus text,
  length text < n ->
  match parse_bus_loop n sys bus text with
  | Ok (sys', text') =>
      exists bus' ds,
        sys' = USB.add sys bus'
        /\ USBBus.name bus' = USBBus.name bus
        /\ map USBDevice.name (USBBus.list bus') = first_names bus ++ ds
        /\ Grammar.sections_go text = (ds, snd (Grammar.sections_go text'))
        /\ length text' <= length text
        /\ at_header "Bus:" text'
  | Raise e => e = ValueError
  | Fuel => False
  end.
Proof.
  induction n as [|n IH]; intros sys bus text Hn; [lia|].
  destruct text as [|l text]; cbn [parse_bus_loop].
  - exists (USBBus.add bus None), []. rewrite first_names_add. simpl.
    repeat split; reflexivity.
  - simpl in Hn.
    destruct (Py.endswith (Py.strip l) "Bus:") eqn:Eb.
    + exists (USBBus.add bus None), []. rewrite first_names_add.
      split; [reflexivity|]. split; [reflexivity|]. split; [reflexivity|].
      split; [|split; [reflexivity|simpl; now rewrite strip_idem]].
      rewrite sections_go_strip. simpl. unfold Grammar.is_bus_header. rewrite Eb.
      now destruct (Grammar.sections_go text).
    + destruct (Py.endswith (Py.strip l) ":") eqn:Eh.
      * unfold parse_dev.
        pose proof (parse_dev_loop_spec text bus
                      (USBDevice.__init__ (Py.init (Py.strip l)))) as Hd.
        destruct (parse_dev_loop bus _ text) as [[bus1 text1]|e|]; simpl; [|exact Hd..].
        destruct Hd as ((dev' & -> & Hdn) & Hs & Hl & _).
        specialize (IH sys (USBBus.add bus (Some dev')) text1 ltac:(lia)).
        destruct (parse_bus_loop n sys _ text1) as [[sys' text']|e|]; [|exact IH..].
        destruct IH as (bus' & ds & -> & Hbn & Hnames & Hsec & Hlen & Hat).
        exists bus', (Py.init (Py.strip l) :: ds).
        split; [reflexivity|]. split; [exact Hbn|].
        split; [|split; [|split; [lia|exact Hat]]].
        -- rewrite Hnames, first_names_added, first_names_add, Hdn, <- app_assoc.
           reflexivity.
        -- unfold Grammar.is_bus_header, Grammar.is_header.
           rewrite Eb, Eh, <- Hs, Hsec. reflexivity.
      * destruct (key_value (Py.strip l)) as [[k v]|e|] eqn:K; simpl.
        -- specialize (IH sys (USBBus.set bus k v) text ltac:(lia)).
           destruct (parse_bus_loop n sys _ text) as [[sys' text']|e|]; [|exact IH..].
           destruct IH as (bus' & ds & -> & Hbn & Hnames & Hsec & Hlen & Hat).
           exists bus', ds.
           split; [reflexivity|]. split; [exact Hbn|]. split; [exact Hnames|].
           split; [|split; [lia|exact Hat]].
           unfold Grammar.is_bus_header, Grammar.is_header.
           rewrite Eb, Eh, Hsec. reflexivity.
        -- eauto using key_value_raises.
        -- now apply key_value_fuel in K.
Qed.

Lemma parse_bus_spec sys name text :
  match parse_bus sys name text with
  | Ok (sys', text') =>
      exists bus' ds,
        sys' = USB.add sys bus'
        /\ shape bus' = (name, name :: ds)
        /\ Grammar.sections_go text = (ds, snd (Grammar.sections_go text'))
        /\ length text' <= length text
        /\ at_header "Bus:" text'
  | Raise e => e = ValueError
  | Fuel => False
  end.
Proof.
  unfold parse_bus.
  pose proof (parse_bus_loop_spec (S (length text)) sys (USBBus.__init__ name) text
                ltac:(lia)) as H.
  destruct (parse_bus_loop _ sys _ text) as [[sys' text']|e|]; [|exact H..].
  destruct H as (bus' & ds & -> & Hn & Hnames & Hsec & Hlen & Hat).
  exists bus', ds. unfold shape. rewrite Hn, Hnames. auto.
Qed.

(** [parse]'s loop: on a budget above the length of the queue it returns with
    the queue empty or raises [ValueError]; the buses it attaches are the bus
    sections of the lines, each with a first child named after the bus and
    then one child per device section. *)
Lemma parse_loop_spec n : forall usb text,
  length text < n ->
  match parse_loop n usb text with
  | Ok (usb', text') =>
      text' = []
      /\ map shape (USB.list usb') =
         map shape (USB.list usb) ++ map section_shape (Grammar.sections text)
  | Raise e => e = ValueError
  | Fuel => False
  end.
Proof.
  induction n as [|n IH]; intros usb text Hn; [lia|].
  destruct text as [|l text]; cbn [parse_loop].
  - split; [reflexivity|]. simpl. now rewrite app_nil_r.
  - simpl in Hn. unfold Grammar.sections. simpl.
    unfold Grammar.is_bus_header, Grammar.is_header.
    destruct (Py.endswith (Py.strip l) "Bus:") eqn:Eb.
    + pose proof (parse_bus_spec usb (Py.init (Py.strip l)) text) as Hb.
      destruct (parse_bus usb _ text) as [[usb1 text1]|e|]; simpl; [|exact Hb..].
      destruct Hb as (bus' & ds & -> & Hshape & Hsec & Hlen & Hat).
      specialize (IH (USB.add usb bus') text1 ltac:(lia)).
      destruct (parse_loop n _ text1) as [[usb' text']|e|]; [|exact IH..].
      destruct IH as (-> & IH). split; [reflexivity|].
      rewrite IH, Hsec. simpl. rewrite map_app, <- app_assoc. simpl.
      now rewrite Hshape.
    + destruct (key_value (Py.strip l)) as [[k v]|e|] eqn:K; simpl.
      * specialize (IH (USB.set usb k v) text ltac:(lia)).
        destruct (parse_loop n _ text) as [[usb' text']|e|]; [|exact IH..].
        destruct IH as (-> & IH). split; [reflexivity|].
        rewrite IH. unfold Grammar.sections. simpl.
        destruct (Grammar.sections_go text) as [pending done].
        now destruct (Py.endswith (Py.strip l) ":").
      * eauto using key_value_raises.
      * now apply key_value_fuel in K.
Qed.

(** [parse] on a report: the anchor, then the loop. *)
Lemma parse_anchor rest :
  parse ("USB:" :: rest) = parse_loop (S (length rest)) USB.__init__ rest.
Proof. reflexivity. Qed.

Lemma parse_inv text r :
  parse text = Ok r ->
  exists rest, text = "USB:" :: rest
               /\ parse_loop (S (length rest)) USB.__init__ rest = Ok r.
Proof.
  destruct text as [|l rest]; [discriminate|]. unfold parse.
  destruct (String.eqb_spec l "USB:") as [->|]; [eauto|discriminate].
Qed.

Lemma parse_shape text usb text' :
  parse text = Ok (usb, text') ->
  text' = []
  /\ map shape (USB.list usb) = map section_shape (Grammar.sections (tail text)).
Proof.
  intros (rest & -> & H)%parse_inv.
  pose proof (parse_loop_spec (S (length rest)) USB.__init__ rest ltac:(lia)) as L.
  rewrite H in L. exact L.
Qed.

(** [parse] never runs out of budget. *)
Lemma parse_total text : parse text <> Fuel.
Proof.
  destruct text as [|l rest]; [discriminate|]. unfold parse.
  destruct (String.eqb l "USB:"); [|discriminate].
  pose proof (parse_loop_spec (S (length rest)) USB.__init__ rest ltac:(lia)) as L.
  intros H. rewrite H in L. exact L.
Qed.

(** On lines that can all be split the parsers do not raise. *)
Lemma splittable_strip l :
  Grammar.is_header l = true -> Grammar.splittable (Py.strip l).
Proof.
  intros H. unfold Grammar.splittable, Grammar.is_header in *.
  now rewrite strip_idem, H.
Qed.

Lemma splittable_key_value l :
  Grammar.splittable l -> exists kv, key_value (Py.strip l) = Ok kv.
Proof.
  intros H. apply key_value_contains. rewrite contains_colon_strip.
  apply orb_true_iff in H. destruct H as [H|H]; [|exact H].
  rewrite <- contains_colon_strip. now apply endswith_colon_contains.
Qed.

Lemma parse_dev_loop_ok text : forall bus dev,
  Forall Grammar.splittable text ->
  exists bus' text',
    parse_dev_loop bus dev text = Ok (bus', text') /\ Forall Grammar.splittable text'.
Proof.
  induction text as [|l text IH]; intros bus dev Hall; [simpl; eauto|].
  inversion Hall as [|? ? Hl Ht]; subst. cbn [parse_dev_loop].
  destruct (Py.endswith (Py.strip l) ":") eqn:E.
  - eexists _, _. split; [reflexivity|]. constructor; [|exact Ht].
    now apply splittable_strip.
  - destruct (splittable_key_value l Hl) as [[k v] ->]. simpl. now apply IH.
Qed.

Lemma parse_bus_loop_ok n : forall sys bus text,
  length text < n -> Forall Grammar.splittable text ->
  exists sys' text',
    parse_bus_loop n sys bus text = Ok (sys', text')
    /\ Forall Grammar.splittable text' /\ length text' <= length text.
Proof.
  induction n as [|n IH]; intros sys bus text Hn Hall; [lia|].
  destruct text as [|l text]; cbn [parse_bus_loop]; [eauto|].
  inversion Hall as [|? ? Hl Ht]; subst. simpl in Hn.
  destruct (Py.endswith (Py.strip l) "Bus:") eqn:Eb.
  - eexists _, _. split; [reflexivity|]. split; [|reflexivity].
    constructor; [|exact Ht].
    apply splittable_strip. now apply endswith_Bus_colon.
  - destruct (Py.endswith (Py.strip l) ":") eqn:Eh.
    + unfold parse_dev.
      pose proof (parse_dev_loop_spec text bus
                    (USBDevice.__init__ (Py.init (Py.strip l)))) as Hd.
      destruct (parse_dev_loop_ok text bus (USBDevice.__init__ (Py.init (Py.strip l))) Ht)
        as (bus1 & text1 & E1 & H1).
      rewrite E1 in Hd |- *. destruct Hd as (_ & _ & Hlen & _). simpl.
      destruct (IH sys bus1 text1 ltac:(lia) H1) as (sys' & text' & -> & H' & Hlen').
      eexists _, _. split; [reflexivity|]. split; [exact H'|simpl; lia].
    + destruct (splittable_key_value l Hl) as [[k v] ->]. simpl.
      destruct (IH sys (USBBus.set bus k v) text ltac:(lia) Ht)
        as (sys' & text' & -> & H' & Hlen').
      eexists _, _. split; [reflexivity|]. split; [exact H'|simpl; lia].
Qed.

Lemma parse_loop_ok n : forall usb text,
  length text < n -> Forall Grammar.splittable text ->
  exists usb', parse_loop n usb text = Ok (usb', []).
Proof.
  induction n as [|n IH]; intros usb text Hn Hall; [lia|].
  destruct text as [|l text]; cbn [parse_loop]; [eauto|].
  inversion Hall as [|? ? Hl Ht]; subst. simpl in Hn.
  destruct (Py.endswith (Py.strip l) "Bus:") eqn:Eb.
  - unfold parse_bus.
    destruct (parse_bus_loop_ok (S (length text)) usb
                (USBBus.__init__ (Py.init (Py.strip l))) text ltac:(lia) Ht)
      as (usb1 & text1 & -> & H1 & Hlen). simpl.
    apply IH; [lia|exact H1].
  - destruct (splittable_key_value l Hl) as [[k v] ->]. simpl.
    apply IH; [lia|exact Ht].
Qed.

(** ** Facts about [int] and [format] *)

(** Reading back a number written in decimal. *)
Lemma scan_uint_acc d : forall p,
  Py.scan_digits 10 (Npos p) true false (DecimalString.NilEmpty.string_of_uint d)
  = Some (Npos (Pos.of_uint_acc d p), EmptyString).
Proof.
  induction d; intros p; [reflexivity|..];
    cbn [DecimalString.NilEmpty.string_of_uint Py.scan_digits Pos.of_uint_acc];
    match goal with
    | |- context [Py.digit_in 10 ?c] =>
        let v := eval vm_compute in (Py.digit_in 10 c) in
        change (Py.digit_in 10 c) with v
    end; cbv beta iota; rewrite <- IHd; f_equal; lia.
Qed.

Ltac eval_digit :=
  match goal with
  | |- context [Py.digit_in 10 ?c] =>
      let v := eval vm_compute in (Py.digit_in 10 c) in
      change (Py.digit_in 10 c) with v
  end; cbv beta iota.

Lemma scan_uint_zero d :
  Py.scan_digits 10 0 true false (DecimalString.NilEmpty.string_of_uint d)
  = Some (Pos.of_uint d, EmptyString).
Proof.
  induction d; [reflexivity|..];
    cbn [DecimalString.NilEmpty.string_of_uint Py.scan_digits Pos.of_uint];
    eval_digit; [exact IHd|..]; apply scan_uint_acc.
Qed.

Lemma scan_uint d seen :
  d <> Decimal.Nil ->
  Py.scan_digits 10 0 seen false (DecimalString.NilEmpty.string_of_uint d)
  = Some (Pos.of_uint d, EmptyString).
Proof.
  destruct d; [congruence|..]; intros _;
    cbn [DecimalString.NilEmpty.string_of_uint Py.scan_digits Pos.of_uint];
    eval_digit; [apply scan_uint_zero|..]; apply scan_uint_acc.
Qed.

Lemma dec_digits_uint n :
  exists d, d <> Decimal.Nil
            /\ Py.dec_digits n = DecimalString.NilEmpty.string_of_uint d
            /\ Pos.of_uint d = n.
Proof.
  destruct n as [|p].
  - exists (Decimal.D0 Decimal.Nil). repeat split. congruence.
  - exists (Pos.to_uint p). pose proof (DecimalPos.Unsigned.to_uint_nonnil p) as Hn.
    split; [exact Hn|]. split; [|apply DecimalPos.Unsigned.of_to].
    unfold Py.dec_digits. simpl. now destruct (Pos.to_uint p).
Qed.

Lemma scan_dec_digits n seen :
  Py.scan_digits 10 0 seen false (Py.dec_digits n) = Some (n, EmptyString).
Proof.
  destruct (dec_digits_uint n) as (d & Hd & -> & <-). now apply scan_uint.
Qed.

Lemma scan_zeros k s seen :
  Py.scan_digits 10 0 seen false (Py.zeros (S k) +:+ s)
  = Py.scan_digits 10 0 true false s.
Proof.
  revert seen. induction k as [|k IH]; intros seen; [reflexivity|].
  change (Py.zeros (S (S k)) +:+ s) with (String "0" (Py.zeros (S k) +:+ s)).
  cbn [Py.scan_digits]. eval_digit. apply IH.
Qed.

Lemma scan_zfill w n :
  Py.scan_digits 10 0 false false (Py.zfill w (Py.dec_digits n)) = Some (n, EmptyString).
Proof.
  unfold Py.zfill. destruct (w - String.length (Py.dec_digits n)) as [|k].
  - apply scan_dec_digits.
  - rewrite scan_zeros. apply scan_dec_digits.
Qed.

Lemma zfill_digit_first w n : digit_first (Py.zfill w (Py.dec_digits n)).
Proof.
  unfold Py.zfill. destruct (w - String.length (Py.dec_digits n)) as [|k]; [|reflexivity].
  destruct (dec_digits_uint n) as (d & Hd & -> & _).
  destruct d; [congruence|..]; reflexivity.
Qed.

Lemma skip_prefix_10 s : Py.skip_prefix 10 s = s.
Proof.
  destruct s as [|[[] [] [] [] [] [] [] []] [|c s]]; reflexivity.
Qed.

Lemma int_10_digits s n :
  digit_first s ->
  Py.scan_digits 10 0 false false s = Some (n, EmptyString) ->
  Py.int 10 s = Some (Z.of_N n) /\ Py.int 10 (String "-" s) = Some (- Z.of_N n)%Z.
Proof.
  destruct s as [|c s]; [contradiction|]. intros Hc Hs.
  assert (Hsign : Py.skip_sign (Py.lstrip_by Py.int_space (String c s)) = (false, String c s)
                  /\ match c with "_"%char => False | _ => True end).
  { destruct c as [[] [] [] [] [] [] [] []]; try discriminate Hc; split; exact I || reflexivity. }
  destruct Hsign as [Hsign Hus].
  unfold Py.int. change (Py.lstrip_by Py.int_space (String "-" (String c s)))
    with (String "-" (String c s)).
  cbn [Py.skip_sign]. rewrite Hsign, skip_prefix_10.
  assert (Hgo : match String c s with
                | String "_" _ => None
                | _ => match Py.scan_digits 10 0 false false (String c s) with
                       | Some (m, rest) =>
                           if Py.is_empty (Py.lstrip_by Py.int_space rest)
                           then Some (Z.of_N m) else None
                       | None => None
                       end
                end = Some (Z.of_N n)).
  { rewrite Hs. destruct c as [[] [] [] [] [] [] [] []]; solve [reflexivity | contradiction]. }
  split; [exact Hgo|].
  rewrite Hs in *. destruct c as [[] [] [] [] [] [] [] []]; solve [reflexivity | contradiction].
Qed.

(** [int(format(z), 10)] is [z], whatever the width. *)
Lemma int_format_d w z : Py.int 10 (Py.format_d w z) = Some z.
Proof.
  unfold Py.format_d, Py.format_int.
  destruct (Z.ltb_spec z 0) as [Hz|Hz].
  - destruct (int_10_digits _ _ (zfill_digit_first (w - 1) (Z.abs_N z))
                (scan_zfill (w - 1) (Z.abs_N z))) as [_ ->].
    f_equal. rewrite N2Z.inj_abs_N. lia.
  - destruct (int_10_digits _ _ (zfill_digit_first w (Z.abs_N z))
                (scan_zfill w (Z.abs_N z))) as [-> _].
    f_equal. rewrite N2Z.inj_abs_N. lia.
Qed.

(** ** Facts about the formatter *)

Lemma append_assoc (a b c : string) : (a +:+ b) +:+ c = a +:+ (b +:+ c).
Proof.
  induction a as [|x a IH]; [reflexivity|].
  change (String x ((a +:+ b) +:+ c) = String x (a +:+ (b +:+ c))).
  now rewrite IH.
Qed.

Lemma join_cons sep s l :
  l <> [] -> Py.join sep (s :: l) = s +:+ sep +:+ Py.join sep l.
Proof. destruct l; [congruence|reflexivity]. Qed.

Lemma join_app sep a b :
  a <> [] -> b <> [] ->
  Py.join sep (a ++ b) = Py.join sep a +:+ sep +:+ Py.join sep b.
Proof.
  intros Ha Hb. induction a as [|x a IH]; [congruence|].
  destruct a as [|y a].
  - simpl app. now rewrite join_cons.
  - rewrite <- app_comm_cons, !join_cons by (try destruct a; simpl; congruence).
    rewrite IH by congruence. now rewrite !append_assoc.
Qed.

(** Joining the joined blocks is joining all the lines, when no block is
    empty. *)
Lemma join_concat sep ls :
  Forall (fun l => l <> []) ls ->
  Py.join sep (map (Py.join sep) ls) = Py.join sep (concat ls).
Proof.
  induction ls as [|l ls IH]; [reflexivity|].
  intros Hall. inversion Hall as [|? ? Hl Hls]; subst.
  destruct ls as [|l' ls].
  - simpl. now rewrite app_nil_r.
  - rewrite map_cons, join_cons by discriminate.
    rewrite IH by exact Hls.
    change (concat (l :: l' :: ls)) with (l ++ concat (l' :: ls)).
    rewrite join_app; [reflexivity|exact Hl|].
    inversion Hls; subst. simpl. destruct l'; [congruence|discriminate].
Qed.

Lemma collect_length {A B} (f : A -> outcome B) l r :
  collect f l = Ok r -> length r = length l.
Proof.
  revert r. induction l as [|a l IH]; intros r; simpl.
  - now intros [= <-].
  - destruct (f a) as [b| |]; simpl; try discriminate.
    destruct (collect f l) as [bs| |]; simpl; try discriminate.
    intros [= <-]. simpl. now rewrite (IH bs).
Qed.

(** What [USB.__str__] returns is the join of the joined lines of its buses. *)
Lemma USB_str_blocks usb s :
  USB.__str__ usb = Ok s ->
  exists ls, collect USBBus.lines (USB.list usb) = Ok ls
             /\ s = Py.join (nl) (map (Py.join (nl)) ls).
Proof.
  unfold USB.__str__. generalize (USB.list usb). intros buses.
  assert (H : collect USBBus.__str__ buses =
              match collect USBBus.lines buses with
              | Ok ls => Ok (map (Py.join (nl)) ls)
              | Raise e => Raise e
              | Fuel => Fuel
              end).
  { induction buses as [|b buses IH]; [reflexivity|]. simpl.
    unfold USBBus.__str__ at 1. destruct (USBBus.lines b) as [l| |]; simpl; try reflexivity.
    rewrite IH. now destruct (collect USBBus.lines buses). }
  rewrite H. destruct (collect USBBus.lines buses) as [ls| |]; simpl; try discriminate.
  intros [= <-]. eauto.
Qed.

Lemma collect_lines_length buses ls :
  collect USBBus.lines buses = Ok ls ->
  Forall2 (fun bus l => length l = length (USBBus.list bus)) buses ls.
Proof.
  revert ls. induction buses as [|b buses IH]; intros ls; simpl.
  - intros [= <-]. constructor.
  - destruct (USBBus.lines b) as [l| |] eqn:E; simpl; try discriminate.
    destruct (collect USBBus.lines buses) as [ls'| |]; simpl; try discriminate.
    intros [= <-]. constructor; [|now apply IH].
    now apply collect_length in E.
Qed.

Lemma USB_str_lines usb s :
  Forall (fun bus => USBBus.list bus <> []) (USB.list usb) ->
  USB.__str__ usb = Ok s ->
  exists lines, all_lines usb = Ok lines
                /\ s = Py.join nl lines
                /\ length lines = children usb.
Proof.
  intros Hne (ls & Hls & ->)%USB_str_blocks.
  unfold all_lines, children. rewrite Hls. simpl.
  apply collect_lines_length in Hls.
  exists (concat ls). split; [reflexivity|].
  revert Hne. induction Hls as [|b l buses ls Hl Hls IH]; intros Hne.
  - split; reflexivity.
  - inversion Hne as [|? ? Hb Hbs]; subst.
    destruct (IH Hbs) as [IH1 IH2]. split.
    + apply join_concat. constructor.
      * destruct l; [|discriminate]. destruct (USBBus.list b); [congruence|discriminate].
      * clear -Hls Hbs. induction Hls as [|b' l' ? ? Hl' ? IH']; constructor.
        -- inversion Hbs; subst. destruct l'; [|discriminate].
           destruct (USBBus.list b'); [congruence|discriminate].
        -- inversion Hbs; subst. now apply IH'.
    + simpl. rewrite length_app, IH2, Hl. reflexivity.
Qed.

(** The tree of a report has, per bus section, one child for the bus and one
    per device section. *)
Lemma shape_children buses : forall secs,
  map shape buses = map section_shape secs ->
  Forall (fun bus => USBBus.list bus <> []) buses
  /\ sum_list_with (fun bus => length (USBBus.list bus)) buses
     = sum_list_with (fun sec => length (snd sec)) secs + length secs.
Proof.
  induction buses as [|b buses IH]; intros [|sec secs] H; try discriminate.
  - split; [constructor|reflexivity].
  - simpl in H. injection H as Hn Hl Hrest.
    destruct (IH secs Hrest) as [IH1 IH2]. split.
    + constructor; [|exact IH1]. intros E. now rewrite E in Hl.
    + simpl. rewrite IH2.
      apply (f_equal (@length string)) in Hl. rewrite length_map in Hl.
      rewrite Hl. simpl. lia.
Qed.

(** ** The root hub *)

Lemma root_hub_copy bus :
  USBBus.root_hub bus
  = {| USBDevice.name := USBBus.name bus; USBDevice.attr := USBBus.attr bus |}.
Proof.
  unfold USBBus.root_hub, update. simpl. f_equal. apply (right_id_L ∅ (∪)).
Qed.

Lemma rooted_add bus entry :
  USBBus.list bus = [] \/ rooted bus -> rooted (USBBus.add bus entry).
Proof.
  unfold rooted. intros H.
  change (USBBus.root_hub (USBBus.add bus entry)) with (USBBus.root_hub bus).
  unfold USBBus.add. simpl.
  destruct (USBBus.list bus) as [|d l], entry as [dev|], H as [H|H];
    try discriminate; try reflexivity; exact H.
Qed.

(** From the first header of a bus section on, [parse_bus] calls [set] no
    more: the first child of the bus it attaches is the copy of the bus's
    final attributes. *)
Lemma parse_bus_loop_rooted n : forall sys bus text sys' text',
  USBBus.list bus = [] \/ (rooted bus /\ at_header ":" text) ->
  parse_bus_loop n sys bus text = Ok (sys', text') ->
  exists bus', sys' = USB.add sys bus' /\ rooted bus'.
Proof.
  induction n as [|n IH]; intros sys bus text sys' text' Hb; [discriminate|].
  assert (Hadd : forall entry, rooted (USBBus.add bus entry)).
  { intros entry. apply rooted_add. tauto. }
  destruct text as [|l text]; cbn [parse_bus_loop].
  - intros [= <- <-]. eauto.
  - destruct (Py.endswith (Py.strip l) "Bus:") eqn:Eb; [intros [= <- <-]; eauto|].
    destruct (Py.endswith (Py.strip l) ":") eqn:Eh.
    + unfold parse_dev.
      pose proof (parse_dev_loop_spec text bus
                    (USBDevice.__init__ (Py.init (Py.strip l)))) as Hd.
      destruct (parse_dev_loop bus _ text) as [[bus1 text1]|e|]; simpl; try discriminate.
      destruct Hd as ((dev' & -> & _) & _ & _ & Hat).
      apply IH. right. split; [apply Hadd|exact Hat].
    + destruct (key_value (Py.strip l)) as [[k v]|e|]; simpl; try discriminate.
      apply IH. left. destruct Hb as [Hb|[_ [Hs He]]]; [exact Hb|].
      rewrite Hs in Eh. congruence.
Qed.

Lemma parse_loop_rooted n : forall usb text usb' text',
  Forall rooted (USB.list usb) ->
  parse_loop n usb text = Ok (usb', text') ->
  Forall rooted (USB.list usb').
Proof.
  induction n as [|n IH]; intros usb text usb' text' Hall; [discriminate|].
  destruct text as [|l text]; cbn [parse_loop]; [now intros [= <- <-]|].
  destruct (Py.endswith (Py.strip l) "Bus:").
  - unfold parse_bus.
    destruct (parse_bus_loop _ usb _ text) as [[usb1 text1]|e|] eqn:E; simpl;
      try discriminate.
    apply parse_bus_loop_rooted in E as (bus' & -> & Hr); [|now left].
    apply IH. simpl. apply Forall_app. split; [exact Hall|]. now constructor.
  - destruct (key_value (Py.strip l)) as [[k v]|e|]; simpl; try discriminate.
    now apply IH.
Qed.

Lemma parse_rooted text usb text' :
  parse text = Ok (usb, text') -> Forall rooted (USB.list usb).
Proof.
  intros (rest & -> & H)%parse_inv.
  eapply parse_loop_rooted; [|exact H]. constructor.
Qed.

(** ** The properties of the specification *)

Lemma sections_names text :
  map fst (Grammar.sections text)
  = map (fun l => Py.init (Py.strip l)) (List.filter Grammar.is_bus_header text).
Proof.
  unfold Grammar.sections. induction text as [|l text IH]; [reflexivity|]. simpl.
  destruct (Grammar.sections_go text) as [pending done]. simpl in IH.
  destruct (Grammar.is_bus_header l); simpl; [now rewrite IH|].
  now destruct (Grammar.is_header l).
Qed.

Lemma sections_go_devices text :
  length (fst (Grammar.sections_go text))
  + sum_list_with (fun sec => length (snd sec)) (snd (Grammar.sections_go text))
  = length (List.filter Grammar.is_device_header text).
Proof.
  induction text as [|l text IH]; [reflexivity|]. simpl.
  destruct (Grammar.sections_go text) as [pending done]. simpl in IH.
  unfold Grammar.is_device_header at 1.
  destruct (Grammar.is_bus_header l), (Grammar.is_header l); simpl;
    now rewrite <- IH.
Qed.

(** The counts of the grammar, read off the lines directly: a bus section
    per bus header, a device section per other header after the first bus
    header. *)
Lemma buses_count text :
  Grammar.buses text = length (List.filter Grammar.is_bus_header text).
Proof.
  unfold Grammar.buses.
  now rewrite <- (length_map fst), sections_names, length_map.
Qed.

Lemma explicit_devices_count text :
  Grammar.explicit_devices text
  = length (List.filter Grammar.is_device_header (Grammar.from_first_bus text)).
Proof.
  unfold Grammar.explicit_devices, Grammar.sections.
  induction text as [|l text IH]; [reflexivity|].
  pose proof (sections_go_devices text) as Hd. simpl.
  destruct (Grammar.sections_go text) as [pending done]. simpl in IH, Hd.
  destruct (Grammar.is_bus_header l) eqn:Eb; simpl.
  - unfold Grammar.is_device_header at 1. rewrite Eb, andb_false_r. exact Hd.
  - now destruct (Grammar.is_header l).
Qed.

(** C1, as amended.  Every bus of a parsed report has the synthetic root hub
    as its first child, whether its first [add] carried a device or the
    finalization placeholder; so the output has one line per device header
    under a bus plus one line per bus header. *)
Theorem line_count text usb text' s :
  parse text = Ok (usb, text') ->
  USB.__str__ usb = Ok s ->
  Forall rooted (USB.list usb)
  /\ exists lines,
       all_lines usb = Ok lines
       /\ s = Py.join nl lines
       /\ length lines
          = length (List.filter Grammar.is_device_header
                      (Grammar.from_first_bus (tail text)))
            + length (List.filter Grammar.is_bus_header (tail text)).
Proof.
  intros Hp Hs. split; [exact (parse_rooted _ _ _ Hp)|].
  destruct (parse_shape _ _ _ Hp) as [_ Hshape].
  destruct (shape_children _ _ Hshape) as [Hne Hsum].
  destruct (USB_str_lines usb s Hne Hs) as (lines & Hl & -> & Hlen).
  exists lines. split; [exact Hl|]. split; [reflexivity|].
  rewrite Hlen, <- explicit_devices_count, <- buses_count. exact Hsum.
Qed.

Lemma line_count_sample :
  Forall rooted (USB.list (parsed sample))
  /\ exists lines,
       all_lines (parsed sample) = Ok lines
       /\ printed sample = Py.join nl lines
       /\ length lines = 2 + 3.
Proof.
  apply (line_count sample (parsed sample) [] (printed sample));
    vm_compute; reflexivity.
Defined.

(** C1 as stated fails: a bus whose first [add] carries a device gets the root
    hub all the same, and the report prints two lines where the stated count
    is one. *)
Lemma line_count_counterexample :
  let dev := USBDevice.set (USBDevice.__init__ "Dev") "Product ID" "0x0001" in
  USBBus.list (USBBus.add (USBBus.__init__ "A Bus") (Some dev))
  = [USBBus.root_hub (USBBus.__init__ "A Bus"); dev]
  /\ all_lines (parsed one_device)
     = Ok ["Bus 999 Device 001: ID 05ac:0x???? Apple Inc. A Bus, ???";
           "Bus 000 Device 000: ID 1d6b:0001 Apple Inc. Dev"]
  /\ parse one_device = Ok (parsed one_device, [])
  /\ Spec.line_count (tail one_device) = 1.
Proof. vm_compute. repeat split; reflexivity. Qed.

(** C4, as amended.  The buses of a parsed report are, in order, the lines
    that end in ["Bus:"] once trimmed, and each is named by its trimmed line
    without the final colon: ["USB 3.1 Bus:"] names the bus ["USB 3.1 Bus"]. *)
Theorem bus_names text usb text' :
  parse text = Ok (usb, text') ->
  map USBBus.name (USB.list usb)
  = map (fun l => Py.init (Py.strip l)) (List.filter Grammar.is_bus_header (tail text))
  /\ Py.init (Py.strip "    USB 3.1 Bus:") = "USB 3.1 Bus".
Proof.
  intros Hp. split; [|reflexivity].
  destruct (parse_shape _ _ _ Hp) as [_ Hshape].
  apply (f_equal (map fst)) in Hshape.
  rewrite !map_map in Hshape. simpl in Hshape.
  rewrite <- sections_names. exact Hshape.
Qed.

Lemma bus_names_sample :
  map USBBus.name (USB.list (parsed sample))
  = ["USB 3.0 Bus"; "USB 3.1 Bus"; "USB 3.1 Bus"]
  /\ Py.init (Py.strip "    USB 3.1 Bus:") = "USB 3.1 Bus".
Proof.
  apply (bus_names sample (parsed sample) []). vm_compute. reflexivity.
Defined.

(** C4 as stated fails: the heading ["USB 3.1 Bus:"] gives the bus the name
    ["USB 3.1 Bus"], where the text before the ["Bus:"] suffix is
    ["USB 3.1"]. *)
Lemma bus_names_counterexample :
  parse ["USB:"; "USB 3.1 Bus:"] = Ok (parsed ["USB:"; "USB 3.1 Bus:"], [])
  /\ map USBBus.name (USB.list (parsed ["USB:"; "USB 3.1 Bus:"])) = ["USB 3.1 Bus"]
  /\ Spec.bus_name "USB 3.1 Bus:" = "USB 3.1".
Proof. vm_compute. repeat split; reflexivity. Qed.

(** C5.  [parse] raises [AssertionError] exactly when the list is empty or
    its first line is not ["USB:"], and the program then prints nothing; with
    the anchor in place the loop runs on the lines after it, and the anchor
    itself leaves no trace in the tree. *)
Theorem parse_requires_anchor text :
  (parse text = Raise AssertionError <-> hd_error text <> Some "USB:")
  /\ (hd_error text <> Some "USB:" -> main text = ([], Raise AssertionError))
  /\ (forall rest, text = "USB:" :: rest ->
        parse text = parse_loop (S (length rest)) USB.__init__ rest)
  /\ parse ["USB:"] = Ok (USB.__init__, []).
Proof.
  assert (Hno : hd_error text <> Some "USB:" -> parse text = Raise AssertionError).
  { destruct text as [|l rest]; [reflexivity|]. unfold parse.
    destruct (String.eqb_spec l "USB:") as [->|]; [|reflexivity].
    intros H. now contradiction H. }
  split; [split; [|exact Hno]|].
  - destruct text as [|l rest]; [discriminate|]. unfold parse.
    destruct (String.eqb_spec l "USB:") as [->|Hne]; [|intros _ [= E]; congruence].
    intros H.
    pose proof (parse_loop_spec (S (length rest)) USB.__init__ rest ltac:(lia)) as L.
    rewrite H in L. discriminate.
  - split; [|split; [|reflexivity]].
    + intros H. unfold main. now rewrite (Hno H).
    + intros rest ->. reflexivity.
Qed.

(** C10.  On a list that starts with ["USB:"] and whose other lines each end
    in a colon or contain one, [parse] returns, and the queue it leaves is
    empty. *)
Theorem parse_consumes_queue rest :
  Forall Grammar.splittable rest ->
  exists usb, parse ("USB:" :: rest) = Ok (usb, []).
Proof.
  intros Hall. rewrite parse_anchor. apply parse_loop_ok; [lia|exact Hall].
Qed.

Lemma parse_consumes_queue_sample :
  exists usb, parse ("USB:" :: tail sample) = Ok (usb, []).
Proof.
  apply (parse_consumes_queue (tail sample)). repeat constructor.
Defined.


(** C2, as amended.  The sample report of the documentation comment prints
    five lines: the root hub of the first bus, its two devices, and the root
    hub of each of the two other buses. *)
Theorem sample_output :
  parse sample = Ok (parsed sample, [])
  /\ all_lines (parsed sample)
     = Ok ["Bus 999 Device 001: ID 05ac:8007 Apple Inc. USB 3.0 Bus, AppleUSBXHCISPTLP";
           "Bus 020 Device 004: ID 05ac:1402 Apple Inc. Apple USB Ethernet Adapter, Serial: 267DCA";
           "Bus 020 Device 000: ID 05ac:8600 Apple Inc. iBridge";
           "Bus 001 Device 001: ID 05ac:8007 Apple Inc. USB 3.1 Bus, AppleUSBXHCIAR";
           "Bus 000 Device 001: ID 05ac:8007 Apple Inc. USB 3.1 Bus, AppleUSBXHCIAR"]
  /\ main sample = ([printed sample], Ok tt).
Proof. vm_compute. repeat split; reflexivity. Qed.

(** C2 as stated fails: the output of the sample has five lines, not four,
    and its first line is the root hub of the first bus. *)
Lemma sample_output_counterexample :
  exists lines,
    all_lines (parsed sample) = Ok lines
    /\ main sample = ([Py.join nl lines], Ok tt)
    /\ length lines = 5
    /\ hd_error lines
       = Some "Bus 999 Device 001: ID 05ac:8007 Apple Inc. USB 3.0 Bus, AppleUSBXHCISPTLP".
Proof. eexists. vm_compute. repeat split; reflexivity. Qed.

(** C3, as amended.  For a device with a ["Product ID"] that formats, the
    device slot is the text after the first slash of ["Location ID"], trimmed,
    read as a decimal number and written in hexadecimal, zero-padded to three
    digits; it is ["000"] without the attribute or without a slash. *)
Theorem dev_slot_decimal bus dev f :
  has (USBDevice.attr dev) "Product ID" = true ->
  USBDevice.locals bus dev = Ok f ->
  Some (USBDevice.devId f) = Spec.slot_read_in 10 (USBDevice.attr dev).
Proof.
  unfold USBDevice.locals, Spec.slot_read_in. intros ->.
  destruct (value_error (Py.int 16 _)) as [b| |]; simpl; try discriminate.
  unfold has, get, Py.contains, Py.split1.
  destruct (USBDevice.attr dev !! "Location ID") as [loc|]; simpl.
  - destruct (Py.partition "/" loc) as [[before after]|]; simpl.
    + unfold Py.last. simpl.
      destruct (Py.int 10 (Py.strip after)) as [n|]; simpl; [|discriminate].
      now intros [= <-].
    + now intros [= <-].
  - now intros [= <-].
Qed.

Lemma dev_slot_decimal_sample :
  Some "004" = Spec.slot_read_in 10 (USBDevice.attr ethernet).
Proof.
  apply (dev_slot_decimal ∅ ethernet (the_locals ∅ ethernet)); vm_compute; reflexivity.
Defined.

(** C3 as stated fails: for the slot text ["10"] the device slot is ["00a"],
    ten in hexadecimal, where reading the text as hexadecimal gives
    ["010"]. *)
Lemma dev_slot_counterexample :
  USBDevice.locals ∅ ethernet_slot_10 = Ok (the_locals ∅ ethernet_slot_10)
  /\ USBDevice.devId (the_locals ∅ ethernet_slot_10) = "00a"
  /\ Spec.dev_slot (USBDevice.attr ethernet_slot_10) = Some "010".
Proof. vm_compute. repeat split; reflexivity. Qed.

(** The locals of the root-hub branch, when the bus number reads. *)
Lemma root_hub_locals bus dev b :
  has (USBDevice.attr dev) "Product ID" = false ->
  Py.int 16 (get bus "Bus Number" "3e7") = Some b ->
  let driver := Py.strip (get (USBDevice.attr dev) "Host Controller Driver"
                            (get (USBDevice.attr dev) "Product ID" "0x????")) in
  USBDevice.locals bus dev
  = Ok {| USBDevice.busId := Py.format_d 3 b;
          USBDevice.devId := "001";
          USBDevice.vndId := "05ac";
          USBDevice.prdId := get USBDevice.controllers driver driver;
          USBDevice.mfrNm := "(" +:+ DEFAULT_VENDOR +:+ ")";
          USBDevice.locId := "0x" +:+ Py.format_x 2 b +:+ "000000";
          USBDevice.serNr :=
            ", " +:+ get (USBDevice.attr dev) "Host Controller Driver" "???" |}.
Proof.
  intros Hno Hb driver.
  unfold USBDevice.locals. rewrite Hno, Hb. cbn [value_error bind].
  rewrite int_format_d. reflexivity.
Qed.



(** C7.  For a device with a ["Product ID"], the ["Vendor ID"]
    ["0x05ac (Apple Inc.)"] and no ["Manufacturer"], the vendor field is
    ["05ac"] and the manufacturer shown is ["Apple Inc."]. *)
Theorem apple_vendor bus dev f :
  has (USBDevice.attr dev) "Product ID" = true ->
  USBDevice.attr dev !! "Vendor ID" = Some "0x05ac (Apple Inc.)" ->
  USBDevice.attr dev !! "Manufacturer" = None ->
  USBDevice.locals bus dev = Ok f ->
  USBDevice.vndId f = "05ac"
  /\ USBDevice.mfr f = "Apple Inc."
  /\ USBDevice.__str__ bus dev
     = Ok ("Bus " +:+ USBDevice.busId f +:+ " Device " +:+ USBDevice.devId f
           +:+ ": ID 05ac:" +:+ USBDevice.prdId f +:+ " Apple Inc. "
           +:+ USBDevice.name dev +:+ USBDevice.serNr f).
Proof.
  intros Hp Hv Hm Hl.
  assert (Hf : USBDevice.vndId f = "05ac" /\ USBDevice.mfr f = "Apple Inc.").
  { revert Hl. unfold USBDevice.locals. rewrite Hp.
    destruct (value_error (Py.int 16 _)) as [b| |]; cbn [bind]; try discriminate.
    match goal with
    | |- context [bind ?m _] => destruct m as [slot| |]; cbn [bind]; try discriminate
    end.
    unfold get. rewrite Hv, Hm. intros [= <-]. split; reflexivity. }
  destruct Hf as [Hvnd Hmfr]. split; [exact Hvnd|]. split; [exact Hmfr|].
  unfold USBDevice.__str__. rewrite Hl. cbn [bind]. unfold USBDevice.render.
  now rewrite Hvnd, Hmfr.
Qed.

Lemma apple_vendor_sample :
  USBDevice.vndId (the_locals ∅ ethernet) = "05ac"
  /\ USBDevice.mfr (the_locals ∅ ethernet) = "Apple Inc."
  /\ USBDevice.__str__ ∅ ethernet
     = Ok "Bus 020 Device 004: ID 05ac:1402 Apple Inc. Apple USB Ethernet Adapter, Serial: 267DCA".
Proof.
  apply (apple_vendor ∅ ethernet (the_locals ∅ ethernet)); vm_compute; reflexivity.
Defined.

(** C8, as amended.  A device without attributes formats as a root hub with
    the defaults whenever the bus number of its bus is absent, or is a number
    in base 16 of at most [Limit.max_str_digits] decimal digits: bus ["999"]
    without a ["Bus Number"], slot ["001"], vendor ["05ac"], product
    ["0x????"], suffix [", ???"].  With a ["Bus Number"] that is no number in
    base 16, formatting raises [ValueError]. *)
Theorem bare_device bus name :
  let dev := USBDevice.__init__ name in
  (bus !! "Bus Number" = None ->
     USBDevice.__str__ bus dev
     = Ok ("Bus 999 Device 001: ID 05ac:0x???? Apple Inc. " +:+ name +:+ ", ???"))
  /\ (forall v b, bus !! "Bus Number" = Some v -> Py.int 16 v = Some b ->
        Limit.decimal_digits b <= Limit.max_str_digits ->
        USBDevice.__str__ bus dev
        = Ok ("Bus " +:+ Py.format_d 3 b +:+ " Device 001: ID 05ac:0x???? Apple Inc. "
              +:+ name +:+ ", ???"))
  /\ (forall v, bus !! "Bus Number" = Some v -> Py.int 16 v = None ->
        USBDevice.__str__ bus dev = Raise ValueError).
Proof.
  intros dev.
  assert (Hb : forall b, Py.int 16 (get bus "Bus Number" "3e7") = Some b ->
               USBDevice.__str__ bus dev
               = Ok ("Bus " +:+ Py.format_d 3 b
                     +:+ " Device 001: ID 05ac:0x???? Apple Inc. " +:+ name +:+ ", ???")).
  { intros b Hb. unfold USBDevice.__str__.
    now rewrite (root_hub_locals bus dev b eq_refl Hb). }
  split; [|split].
  - intros Hn. apply (Hb 999%Z). unfold get. now rewrite Hn.
  - intros v b Hv Hi _. apply Hb. unfold get. now rewrite Hv.
  - intros v Hv Hi. unfold USBDevice.__str__, USBDevice.locals.
    change (has (USBDevice.attr dev) "Product ID") with false. cbv iota.
    unfold get at 1. now rewrite Hv, Hi.
Qed.

Lemma bare_device_sample :
  USBDevice.__str__ ∅ bare
  = Ok "Bus 999 Device 001: ID 05ac:0x???? Apple Inc. Dev, ???"
  /\ USBDevice.__str__ (<["Bus Number" := "0x01"]> ∅) bare
     = Ok "Bus 001 Device 001: ID 05ac:0x???? Apple Inc. Dev, ???".
Proof.
  split.
  - apply (bare_device ∅ "Dev"). reflexivity.
  - apply (proj1 (proj2 (bare_device (<["Bus Number" := "0x01"]> ∅) "Dev")) "0x01" 1%Z);
      [reflexivity | reflexivity | vm_compute; lia].
Defined.

(** C8 as stated fails: under a bus whose ["Bus Number"] is ["zz"] a device
    without attributes does not format, and the report that holds it prints
    nothing. *)
Lemma bare_device_counterexample :
  USBDevice.__str__ (<["Bus Number" := "zz"]> ∅) bare = Raise ValueError
  /\ map shape (USB.list (parsed bad_bus_number)) = [("X Bus", ["X Bus"; "Dev"])]
  /\ (exists bus, USB.list (parsed bad_bus_number) = [bus]
                  /\ USBBus.list bus = [USBBus.root_hub bus; bare])
  /\ parse bad_bus_number = Ok (parsed bad_bus_number, [])
  /\ main bad_bus_number = ([], Raise ValueError).
Proof. vm_compute. repeat split; try reflexivity. eexists. split; reflexivity. Qed.

(** ** The bus object under any sequence of calls *)

Lemma calls_name cs : forall bus, USBBus.name (calls bus cs) = USBBus.name bus.
Proof.
  induction cs as [|c cs IH]; intros bus; [reflexivity|].
  simpl. rewrite IH. now destruct c.
Qed.

(** Once a bus has a child, no call changes its first child. *)
Lemma calls_head cs : forall bus,
  USBBus.list bus <> [] ->
  hd_error (USBBus.list (calls bus cs)) = hd_error (USBBus.list bus).
Proof.
  induction cs as [|c cs IH]; intros bus Hne; [reflexivity|].
  simpl. destruct c as [k v|entry]; simpl.
  - now rewrite IH.
  - rewrite IH.
    + unfold USBBus.add. simpl.
      destruct (USBBus.list bus) as [|d l]; [congruence|]. now destruct entry.
    + unfold USBBus.add. simpl.
      destruct (USBBus.list bus) as [|d l]; [congruence|]. now destruct entry.
Qed.

Lemma calls_first_add cs : forall bus,
  USBBus.list bus = [] ->
  USBBus.list (calls bus cs) <> [] ->
  exists before entry after,
    cs = before ++ CallAdd entry :: after
    /\ Forall is_set before
    /\ hd_error (USBBus.list (calls bus cs))
       = Some (USBBus.root_hub (calls bus before)).
Proof.
  induction cs as [|c cs IH]; intros bus Hnil Hne; [contradiction|].
  destruct c as [k v|entry].
  - destruct (IH (USBBus.set bus k v) Hnil Hne) as (before & entry & after & -> & Hb & Hh).
    exists (CallSet k v :: before), entry, after.
    split; [reflexivity|]. split; [now constructor|exact Hh].
  - exists [], entry, cs. split; [reflexivity|]. split; [constructor|].
    simpl. rewrite calls_head.
    + unfold USBBus.add. simpl. rewrite Hnil. now destruct entry.
    + unfold USBBus.add. simpl. rewrite Hnil. now destruct entry.
Qed.

(** What [parse_bus] does to its bus is a sequence of [set] and [add]
    calls. *)
Lemma parse_bus_loop_calls n : forall sys bus text sys' text',
  parse_bus_loop n sys bus text = Ok (sys', text') ->
  exists cs, sys' = USB.add sys (calls bus cs).
Proof.
  induction n as [|n IH]; intros sys bus text sys' text'; [discriminate|].
  destruct text as [|l text]; cbn [parse_bus_loop].
  - intros [= <- <-]. now exists [CallAdd None].
  - destruct (Py.endswith (Py.strip l) "Bus:").
    { intros [= <- <-]. now exists [CallAdd None]. }
    destruct (Py.endswith (Py.strip l) ":").
    + unfold parse_dev.
      pose proof (parse_dev_loop_spec text bus
                    (USBDevice.__init__ (Py.init (Py.strip l)))) as Hd.
      destruct (parse_dev_loop bus _ text) as [[bus1 text1]|e|]; simpl; try discriminate.
      destruct Hd as ((dev' & -> & _) & _).
      intros (cs & ->)%IH. now exists (CallAdd (Some dev') :: cs).
    + destruct (key_value (Py.strip l)) as [[k v]|e|]; simpl; try discriminate.
      intros (cs & ->)%IH. now exists (CallSet k v :: cs).
Qed.

(** A bus that is given a bus number, finalized, and given a speed: the
    first child has the bus number and not the speed, which is on the bus
    only. *)
Example snapshot_values :
  let bus := calls (USBBus.__init__ "USB 3.1 Bus")
               [CallSet "Bus Number" "0x01"; CallAdd None; CallSet "Speed" "fast"] in
  USBBus.list bus
  = [{| USBDevice.name := "USB 3.1 Bus";
        USBDevice.attr := <["Bus Number" := "0x01"]> ∅ |}]
  /\ USBBus.attr bus !! "Speed" = Some "fast".
Proof. vm_compute. split; reflexivity. Qed.

(** In a report, a key/value line that follows a device header is set on
    that device: the bus and its root hub both keep the attributes read
    before the header. *)
Example late_key_values :
  exists bus,
    parse late_key = Ok ({| USB.attr := ∅; USB.list := [bus] |}, [])
    /\ USBBus.attr bus = <["A" := "1"]> ∅
    /\ USBBus.list bus
       = [{| USBDevice.name := "X Bus"; USBDevice.attr := <["A" := "1"]> ∅ |};
          {| USBDevice.name := "Dev"; USBDevice.attr := <["B" := "2"]> ∅ |}].
Proof. eexists. vm_compute. repeat split; reflexivity. Qed.

(** ** [parse] builds the tree of the report *)

Lemma key_value_entry l :
  Grammar.splittable l -> key_value (Py.strip l) = Ok (Report.entry l).
Proof.
  intros H. destruct (splittable_key_value l H) as [kv E]. rewrite E. f_equal.
  revert E. unfold key_value, Report.entry, Py.split1.
  destruct (Py.partition ":" (Py.strip l)) as [[k v]|]; simpl; congruence.
Qed.

Lemma tree_go_strip l text :
  Report.tree_go (Py.strip l :: text)
  = let '(kvs, devs, buses) := Report.tree_go (l :: text) in
    (match kvs with [] => [] | _ :: kvs' => Py.strip l :: kvs' end, devs, buses).
Proof.
  simpl. unfold Grammar.is_bus_header, Grammar.is_header. rewrite !strip_idem.
  destruct (Report.tree_go text) as [[kvs devs] buses].
  destruct (Py.endswith (Py.strip l) "Bus:"); [reflexivity|].
  now destruct (Py.endswith (Py.strip l) ":").
Qed.

Lemma parse_dev_loop_tree text : forall bus dev kvs devs buses,
  Forall Grammar.splittable text ->
  Report.tree_go text = (kvs, devs, buses) ->
  exists text',
    parse_dev_loop bus dev text
    = Ok (USBBus.add bus (Some {| USBDevice.name := USBDevice.name dev;
                                  USBDevice.attr :=
                                    Report.attrs_of (USBDevice.attr dev) kvs |}),
          text')
    /\ Report.tree_go text' = ([], devs, buses)
    /\ Forall Grammar.splittable text'
    /\ length text' <= length text
    /\ at_header ":" text'.
Proof.
  induction text as [|l text IH]; intros bus dev kvs devs buses Hall Ht.
  - injection Ht as <- <- <-. exists []. destruct dev. simpl. repeat split; auto.
  - inversion Hall as [|? ? Hl Hrest]; subst. cbn [parse_dev_loop].
    destruct (Py.endswith (Py.strip l) ":") eqn:E.
    + exists (Py.strip l :: text).
      assert (Hk : kvs = []
                   /\ Report.tree_go (Py.strip l :: text) = ([], devs, buses)).
      { rewrite tree_go_strip, Ht. revert Ht. simpl. unfold Grammar.is_header.
        rewrite E. destruct (Report.tree_go text) as [[kvs0 devs0] buses0].
        destruct (Grammar.is_bus_header l); intros [= <- <- <-]; auto. }
      destruct Hk as [-> Hk]. destruct dev. simpl.
      split; [reflexivity|]. split; [exact Hk|].
      split; [constructor; [now apply splittable_strip|exact Hrest]|].
      split; [reflexivity|]. now rewrite strip_idem.
    + rewrite (key_value_entry l Hl). cbn [bind].
      revert Ht. simpl. unfold Grammar.is_header.
      rewrite (not_header_not_bus l E), E.
      destruct (Report.tree_go text) as [[kvs0 devs0] buses0] eqn:Et.
      intros [= <- <- <-].
      destruct (Report.entry l) as [k v] eqn:Ee.
      destruct (IH bus (USBDevice.set dev k v) kvs0 devs0 buses0 Hrest eq_refl)
        as (text' & Hp & Ht' & Hs' & Hlen & Hat).
      exists text'. split; [|split; [exact Ht'|split;
                               [exact Hs'|split; [simpl; lia|exact Hat]]]].
      rewrite Hp. unfold Report.attrs_of. simpl. now rewrite Ee.
Qed.

Lemma tree_go_at_header text :
  at_header ":" text -> fst (fst (Report.tree_go text)) = [].
Proof.
  destruct text as [|h t]; [reflexivity|]. intros [Hs He]. simpl.
  unfold Grammar.is_bus_header, Grammar.is_header. rewrite Hs, He.
  destruct (Report.tree_go t) as [[kvs devs] buses].
  now destruct (Py.endswith h "Bus:").
Qed.

Lemma add_None_tree bus :
  USBBus.add bus None
  = {| USBBus.name := USBBus.name bus;
       USBBus.attr := Report.attrs_of (USBBus.attr bus) [];
       USBBus.list :=
         match USBBus.list bus with
         | [] => [{| USBDevice.name := USBBus.name bus;
                     USBDevice.attr := Report.attrs_of (USBBus.attr bus) [] |}]
         | d :: l => d :: l
         end ++ [] |}.
Proof.
  unfold USBBus.add. rewrite root_hub_copy, app_nil_r. simpl.
  now destruct (USBBus.list bus).
Qed.

Lemma parse_bus_loop_tree n : forall sys bus text kvs devs buses,
  length text < n ->
  Forall Grammar.splittable text ->
  USBBus.list bus = [] \/ at_header ":" text ->
  Report.tree_go text = (kvs, devs, buses) ->
  exists text',
    parse_bus_loop n sys bus text
    = Ok (USB.add sys
            {| USBBus.name := USBBus.name bus;
               USBBus.attr := Report.attrs_of (USBBus.attr bus) kvs;
               USBBus.list :=
                 match USBBus.list bus with
                 | [] => [{| USBDevice.name := USBBus.name bus;
                             USBDevice.attr := Report.attrs_of (USBBus.attr bus) kvs |}]
                 | d :: l => d :: l
                 end ++ devs |},
          text')
    /\ Report.tree_go text' = ([], [], buses)
    /\ Forall Grammar.splittable text'
    /\ length text' <= length text
    /\ at_header "Bus:" text'.
Proof.
  induction n as [|n IH]; intros sys bus text kvs devs buses Hn Hall Hb Ht; [lia|].
  destruct text as [|l text]; cbn [parse_bus_loop].
  - injection Ht as <- <- <-. exists []. rewrite <- add_None_tree.
    repeat split; auto.
  - inversion Hall as [|? ? Hl Hrest]; subst. simpl in Hn.
    revert Ht. simpl. unfold Grammar.is_bus_header, Grammar.is_header.
    destruct (Report.tree_go text) as [[kvs0 devs0] buses0] eqn:Et.
    destruct (Py.endswith (Py.strip l) "Bus:") eqn:Eb.
    + intros [= <- <- <-]. exists (Py.strip l :: text).
      rewrite <- add_None_tree. split; [reflexivity|].
      split; [|split; [|split; [reflexivity|]]].
      * rewrite tree_go_strip. simpl. unfold Grammar.is_bus_header. now rewrite Eb, Et.
      * constructor; [|exact Hrest]. apply splittable_strip.
        now apply endswith_Bus_colon.
      * simpl. now rewrite strip_idem.
    + destruct (Py.endswith (Py.strip l) ":") eqn:Eh.
      * intros [= <- <- <-]. unfold parse_dev.
        destruct (parse_dev_loop_tree text bus (USBDevice.__init__ (Py.init (Py.strip l)))
                    kvs0 devs0 buses0 Hrest Et)
          as (text1 & -> & Ht1 & Hs1 & Hlen1 & Hat1).
        cbn [bind].
        destruct (IH sys (USBBus.add bus
                            (Some {| USBDevice.name := Py.init (Py.strip l);
                                     USBDevice.attr := Report.attrs_of ∅ kvs0 |}))
                    text1 [] devs0 buses0 ltac:(lia) Hs1 (or_intror Hat1) Ht1)
          as (text' & Hp & Ht' & Hs' & Hlen' & Hat').
        exists text'.
        split; [|split; [exact Ht'|split; [exact Hs'|split; [simpl; lia|exact Hat']]]].
        cbn [USBDevice.name USBDevice.attr USBDevice.__init__].
        rewrite Hp. do 2 f_equal.
        unfold USBBus.add. simpl. rewrite root_hub_copy.
        destruct (USBBus.list bus) as [|d ds]; simpl; [reflexivity|].
        now rewrite <- app_assoc.
      * intros [= <- <- <-]. rewrite (key_value_entry l Hl). cbn [bind].
        destruct (Report.entry l) as [k v] eqn:Ee.
        assert (Hnil : USBBus.list bus = []).
        { destruct Hb as [Hb|[Hs He]]; [exact Hb|]. rewrite Hs in Eh. congruence. }
        destruct (IH sys (USBBus.set bus k v) text kvs0 devs0 buses0
                    ltac:(lia) Hrest (or_introl Hnil) Et)
          as (text' & Hp & Ht' & Hs' & Hlen' & Hat').
        exists text'.
        split; [|split; [exact Ht'|split; [exact Hs'|split; [simpl; lia|exact Hat']]]].
        rewrite Hp. simpl. rewrite Hnil. unfold Report.attrs_of. simpl.
        now rewrite Ee.
Qed.

Lemma before_first_bus_at_bus text :
  at_header "Bus:" text -> Report.before_first_bus text = [].
Proof.
  destruct text as [|h t]; [reflexivity|]. intros [Hs He]. simpl.
  unfold Grammar.is_bus_header. now rewrite Hs, He.
Qed.

Lemma parse_loop_tree n : forall usb text,
  length text < n ->
  Forall Grammar.splittable text ->
  parse_loop n usb text
  = Ok ({| USB.attr := Report.attrs_of (USB.attr usb) (Report.before_first_bus text);
           USB.list := USB.list usb ++ snd (Report.tree_go text) |}, []).
Proof.
  induction n as [|n IH]; intros usb text Hn Hall; [lia|].
  destruct text as [|l text]; cbn [parse_loop].
  - destruct usb. simpl. now rewrite app_nil_r.
  - inversion Hall as [|? ? Hl Hrest]; subst. simpl in Hn. simpl.
    unfold Grammar.is_bus_header.
    destruct (Report.tree_go text) as [[kvs devs] buses] eqn:Et.
    destruct (Py.endswith (Py.strip l) "Bus:") eqn:Eb.
    + unfold parse_bus.
      destruct (parse_bus_loop_tree (S (length text)) usb
                  (USBBus.__init__ (Py.init (Py.strip l))) text kvs devs buses
                  ltac:(lia) Hrest (or_introl eq_refl) Et)
        as (text1 & -> & Ht1 & Hs1 & Hlen1 & Hat1).
      cbn [bind]. rewrite IH by (lia || exact Hs1).
      rewrite (before_first_bus_at_bus _ Hat1), Ht1. simpl.
      now rewrite <- app_assoc.
    + rewrite (key_value_entry l Hl). cbn [bind].
      destruct (Report.entry l) as [k v] eqn:Ee.
      rewrite IH by (lia || exact Hrest). simpl.
      unfold Report.attrs_of at 2. simpl. rewrite Ee, Et.
      now destruct (Grammar.is_header l).
Qed.

(** A line without a colon stops the parsers. *)
Lemma key_value_ok_contains line kv :
  key_value line = Ok kv -> Py.contains ":" line = true.
Proof.
  unfold key_value, Py.split1, Py.contains.
  destruct (Py.partition ":" line) as [[a b]|]; [reflexivity|discriminate].
Qed.

Lemma key_value_ok_splittable l kv :
  key_value (Py.strip l) = Ok kv -> Grammar.splittable l.
Proof.
  intros H%key_value_ok_contains. rewrite contains_colon_strip in H.
  unfold Grammar.splittable. rewrite H. apply orb_true_r.
Qed.

Lemma header_splittable l : Py.endswith (Py.strip l) ":" = true -> Grammar.splittable l.
Proof. intros H. unfold Grammar.splittable, Grammar.is_header. now rewrite H. Qed.

Lemma parse_dev_loop_splittable text : forall bus dev bus' text',
  parse_dev_loop bus dev text = Ok (bus', text') ->
  Forall Grammar.splittable text' -> Forall Grammar.splittable text.
Proof.
  induction text as [|l text IH]; intros bus dev bus' text'; [constructor|].
  cbn [parse_dev_loop]. destruct (Py.endswith (Py.strip l) ":") eqn:E.
  - intros [= <- <-] Hall. inversion Hall; subst.
    constructor; [now apply header_splittable|assumption].
  - destruct (key_value (Py.strip l)) as [[k v]|e|] eqn:K; simpl; try discriminate.
    intros Hp Hall. constructor; [exact (key_value_ok_splittable _ _ K)|].
    exact (IH _ _ _ _ Hp Hall).
Qed.

Lemma parse_bus_loop_splittable n : forall sys bus text sys' text',
  parse_bus_loop n sys bus text = Ok (sys', text') ->
  Forall Grammar.splittable text' -> Forall Grammar.splittable text.
Proof.
  induction n as [|n IH]; intros sys bus text sys' text'; [discriminate|].
  destruct text as [|l text]; cbn [parse_bus_loop]; [constructor|].
  destruct (Py.endswith (Py.strip l) "Bus:") eqn:Eb.
  - intros [= <- <-] Hall. inversion Hall; subst.
    constructor; [|assumption].
    apply header_splittable. now apply endswith_Bus_colon.
  - destruct (Py.endswith (Py.strip l) ":") eqn:Eh.
    + unfold parse_dev.
      destruct (parse_dev_loop bus _ text) as [[bus1 text1]|e|] eqn:Ed; simpl;
        try discriminate.
      intros Hp Hall. constructor; [now apply header_splittable|].
      eapply parse_dev_loop_splittable; [exact Ed|].
      exact (IH _ _ _ _ _ Hp Hall).
    + destruct (key_value (Py.strip l)) as [[k v]|e|] eqn:K; simpl; try discriminate.
      intros Hp Hall. constructor; [exact (key_value_ok_splittable _ _ K)|].
      exact (IH _ _ _ _ _ Hp Hall).
Qed.

Lemma parse_loop_splittable n : forall usb text r,
  parse_loop n usb text = Ok r -> Forall Grammar.splittable text.
Proof.
  induction n as [|n IH]; intros usb text r; [discriminate|].
  destruct text as [|l text]; cbn [parse_loop]; [constructor|].
  destruct (Py.endswith (Py.strip l) "Bus:") eqn:Eb.
  - unfold parse_bus.
    destruct (parse_bus_loop _ usb _ text) as [[usb1 text1]|e|] eqn:Ep; simpl;
      try discriminate.
    intros Hp. constructor.
    + apply header_splittable. now apply endswith_Bus_colon.
    + eapply parse_bus_loop_splittable; [exact Ep|]. exact (IH _ _ _ Hp).
  - destruct (key_value (Py.strip l)) as [[k v]|e|] eqn:K; simpl; try discriminate.
    intros Hp. constructor; [exact (key_value_ok_splittable _ _ K)|].
    exact (IH _ _ _ Hp).
Qed.

Lemma no_colon_not_splittable l :
  Py.contains ":" l = false -> ~ Grammar.splittable l.
Proof.
  intros Hc H. unfold Grammar.splittable in H. rewrite Hc, orb_false_r in H.
  apply endswith_colon_contains in H. rewrite contains_colon_strip in H. congruence.
Qed.

Lemma splittable_or_not text :
  Forall Grammar.splittable text
  \/ Exists (fun l => Py.contains ":" l = false) text.
Proof.
  induction text as [|l text [IH|IH]]; [left; constructor| |right; now constructor].
  destruct (Py.contains ":" l) eqn:E; [|right; now constructor].
  left. constructor; [|exact IH]. unfold Grammar.splittable. rewrite E.
  apply orb_true_r.
Qed.

(** The two outcomes of [parse] behind the anchor. *)
Lemma parse_outcome rest :
  (Forall Grammar.splittable rest
   /\ parse ("USB:" :: rest) = Ok (Report.tree rest, []))
  \/ (Exists (fun l => Py.contains ":" l = false) rest
      /\ parse ("USB:" :: rest) = Raise ValueError).
Proof.
  rewrite parse_anchor.
  destruct (splittable_or_not rest) as [H|H]; [left|right]; (split; [exact H|]).
  - now rewrite parse_loop_tree by (lia || exact H).
  - pose proof (parse_loop_spec (S (length rest)) USB.__init__ rest ltac:(lia)) as L.
    destruct (parse_loop _ _ rest) as [r|e|] eqn:E; [|now rewrite L|contradiction].
    apply parse_loop_splittable in E.
    apply Exists_exists in H as (l & Hin & Hc).
    rewrite Forall_forall in E.
    now destruct (no_colon_not_splittable l Hc (E l Hin)).
Qed.

(** X1.  On a report whose lines after the anchor each end in a colon or
    contain one, [parse] returns the tree of the report: what precedes the
    first bus header is set on the root; every bus header opens a bus that
    holds the key/value lines up to the next header, with a first child that
    copies them, and one child per device header with the key/value lines
    under it. *)
Theorem parse_builds_tree rest :
  Forall Grammar.splittable rest ->
  parse ("USB:" :: rest) = Ok (Report.tree rest, []).
Proof.
  intros H. rewrite parse_anchor. now rewrite parse_loop_tree by (lia || exact H).
Qed.

Lemma parse_builds_tree_sample :
  parse ("USB:" :: tail sample) = Ok (Report.tree (tail sample), []).
Proof. apply (parse_builds_tree (tail sample)). repeat constructor. Defined.

(** X2.  Behind the anchor, [parse] raises [ValueError] exactly when some
    line has no colon; a line of blanks is such a line. *)
Theorem parse_value_error rest :
  (parse ("USB:" :: rest) = Raise ValueError
   <-> Exists (fun l => Py.contains ":" l = false) rest)
  /\ (forall l, Py.strip l = EmptyString -> In l rest ->
        parse ("USB:" :: rest) = Raise ValueError).
Proof.
  assert (Hiff : parse ("USB:" :: rest) = Raise ValueError
                 <-> Exists (fun l => Py.contains ":" l = false) rest).
  { destruct (parse_outcome rest) as [[_ H]|[He H]]; rewrite H.
    - split; [discriminate|]. intros He.
      destruct (parse_outcome rest) as [[Hs _]|[_ H']]; [|congruence].
      apply Exists_exists in He as (l & Hin & Hc). rewrite Forall_forall in Hs.
      now destruct (no_colon_not_splittable l Hc (Hs l Hin)).
    - tauto. }
  split; [exact Hiff|].
  intros l Hl Hin. apply Hiff. apply Exists_exists. exists l.
  split; [now apply list_elem_of_In|].
  rewrite <- contains_colon_strip, Hl. reflexivity.
Qed.

(** ** Blanks around the lines *)

Lemma entry_strip_eq l l' : Py.strip l = Py.strip l' -> Report.entry l = Report.entry l'.
Proof. unfold Report.entry. now intros ->. Qed.

Lemma attrs_of_strip_eq ls : forall ls' d,
  map Py.strip ls = map Py.strip ls' -> Report.attrs_of d ls = Report.attrs_of d ls'.
Proof.
  induction ls as [|l ls IH]; intros [|l' ls'] d; try discriminate; [reflexivity|].
  intros [= Hl Hls]. unfold Report.attrs_of. simpl.
  rewrite (entry_strip_eq l l' Hl). now apply IH.
Qed.

Lemma before_first_bus_strip_eq text : forall text',
  map Py.strip text = map Py.strip text' ->
  map Py.strip (Report.before_first_bus text)
  = map Py.strip (Report.before_first_bus text').
Proof.
  induction text as [|l text IH]; intros [|l' text']; try discriminate; [reflexivity|].
  intros [= Hl Ht]. simpl. unfold Grammar.is_bus_header. rewrite Hl.
  destruct (Py.endswith (Py.strip l') "Bus:"); [reflexivity|].
  simpl. now rewrite Hl, (IH text').
Qed.

Lemma tree_go_strip_eq text : forall text',
  map Py.strip text = map Py.strip text' ->
  map Py.strip (fst (fst (Report.tree_go text)))
  = map Py.strip (fst (fst (Report.tree_go text')))
  /\ snd (fst (Report.tree_go text)) = snd (fst (Report.tree_go text'))
  /\ snd (Report.tree_go text) = snd (Report.tree_go text').
Proof.
  induction text as [|l text IH]; intros [|l' text']; try discriminate; [auto|].
  intros [= Hl Ht]. destruct (IH text' Ht) as (Hk & Hd & Hb). simpl.
  unfold Grammar.is_bus_header, Grammar.is_header. rewrite Hl.
  destruct (Report.tree_go text) as [[kvs devs] buses].
  destruct (Report.tree_go text') as [[kvs' devs'] buses']. simpl in *. subst.
  rewrite (attrs_of_strip_eq kvs kvs' ∅ Hk).
  destruct (Py.endswith (Py.strip l') "Bus:"); [auto|].
  destruct (Py.endswith (Py.strip l') ":"); [auto|].
  simpl. now rewrite Hl, Hk.
Qed.

Lemma tree_strip_eq text text' :
  map Py.strip text = map Py.strip text' -> Report.tree text = Report.tree text'.
Proof.
  intros H. unfold Report.tree.
  destruct (tree_go_strip_eq text text' H) as (_ & _ & ->).
  now rewrite (attrs_of_strip_eq _ _ ∅ (before_first_bus_strip_eq text text' H)).
Qed.

Lemma splittable_strip_eq text : forall text',
  map Py.strip text = map Py.strip text' ->
  Forall Grammar.splittable text -> Forall Grammar.splittable text'.
Proof.
  induction text as [|l text IH]; intros [|l' text']; try discriminate; [auto|].
  intros [= Hl Ht] Hall. inversion Hall as [|? ? Hs Hrest]; subst.
  constructor; [|now apply IH].
  unfold Grammar.splittable, Grammar.is_header in *.
  now rewrite <- contains_colon_strip, <- Hl, contains_colon_strip.
Qed.

(** X3.  Blanks at either end of the lines behind the anchor change nothing:
    two reports whose lines agree once trimmed give the same tree or the same
    exception. *)
Theorem parse_ignores_blanks rest rest' :
  map Py.strip rest = map Py.strip rest' ->
  parse ("USB:" :: rest) = parse ("USB:" :: rest').
Proof.
  intros H.
  destruct (parse_outcome rest) as [[Hs ->]|[He ->]],
           (parse_outcome rest') as [[Hs' ->]|[He' ->]].
  - now rewrite (tree_strip_eq rest rest' H).
  - apply (splittable_strip_eq rest rest' H) in Hs.
    apply Exists_exists in He' as (l & Hin & Hc). rewrite Forall_forall in Hs.
    now destruct (no_colon_not_splittable l Hc (Hs l Hin)).
  - apply (splittable_strip_eq rest' rest (eq_sym H)) in Hs'.
    apply Exists_exists in He as (l & Hin & Hc). rewrite Forall_forall in Hs'.
    now destruct (no_colon_not_splittable l Hc (Hs' l Hin)).
  - reflexivity.
Qed.

Lemma parse_ignores_blanks_sample :
  parse ("USB:" :: tail sample) = parse ("USB:" :: map Py.strip (tail sample)).
Proof.
  apply (parse_ignores_blanks (tail sample) (map Py.strip (tail sample))).
  vm_compute. reflexivity.
Defined.

(** ** A report without a bus *)

Lemma no_bus_before text :
  Forall (fun l => Grammar.is_bus_header l = false) text ->
  Report.before_first_bus text = text /\ snd (Report.tree_go text) = [].
Proof.
  induction text as [|l text IH]; [auto|]. intros Hall.
  inversion Hall as [|? ? Hl Hrest]; subst. destruct (IH Hrest) as [IH1 IH2].
  simpl. rewrite Hl, IH1. split; [reflexivity|].
  destruct (Report.tree_go text) as [[kvs devs] buses]. simpl in IH2. subst.
  now destruct (Grammar.is_header l).
Qed.

(** X4.  Without a line that ends in ["Bus:"] there is no bus and no device:
    every line, a line that ends in a colon included, is set on the root as
    a key with its value, and the program prints one empty line. *)
Theorem report_without_bus rest :
  Forall Grammar.splittable rest ->
  Forall (fun l => Grammar.is_bus_header l = false) rest ->
  parse ("USB:" :: rest)
  = Ok ({| USB.attr := Report.attrs_of ∅ rest; USB.list := [] |}, [])
  /\ main ("USB:" :: rest) = ([EmptyString], Ok tt).
Proof.
  intros Hs Hb.
  assert (Hp : parse ("USB:" :: rest)
               = Ok ({| USB.attr := Report.attrs_of ∅ rest; USB.list := [] |}, [])).
  { rewrite parse_anchor, parse_loop_tree by (lia || exact Hs).
    destruct (no_bus_before rest Hb) as [-> ->]. reflexivity. }
  split; [exact Hp|]. unfold main. now rewrite Hp.
Qed.

Lemma report_without_bus_sample :
  parse ["USB:"; "Dev:"; "Product ID: 0x0001"]
  = Ok ({| USB.attr := <["Product ID" := "0x0001"]> (<["Dev" := ""]> ∅);
           USB.list := [] |}, [])
  /\ main ["USB:"; "Dev:"; "Product ID: 0x0001"] = ([EmptyString], Ok tt).
Proof.
  apply (report_without_bus ["Dev:"; "Product ID: 0x0001"]); repeat constructor.
Defined.

(** ** The children of a bus under any sequence of calls *)

Lemma calls_list_nonempty cs : forall bus,
  USBBus.list bus <> [] ->
  USBBus.list (calls bus cs) = USBBus.list bus ++ entries cs.
Proof.
  induction cs as [|c cs IH]; intros bus Hne; simpl; [now rewrite app_nil_r|].
  destruct c as [k v|[dev|]]; simpl.
  - now rewrite IH.
  - rewrite IH.
    + unfold USBBus.add. simpl. destruct (USBBus.list bus); [congruence|].
      simpl. now rewrite <- app_assoc.
    + unfold USBBus.add. simpl. now destruct (USBBus.list bus).
  - rewrite IH.
    + unfold USBBus.add. simpl. now destruct (USBBus.list bus).
    + unfold USBBus.add. simpl. now destruct (USBBus.list bus).
Qed.

Lemma calls_list_fresh cs : forall bus,
  USBBus.list bus = [] ->
  (Forall is_set cs /\ USBBus.list (calls bus cs) = [])
  \/ (~ Forall is_set cs
      /\ exists root, USBBus.list (calls bus cs) = root :: entries cs).
Proof.
  induction cs as [|c cs IH]; intros bus Hnil; [left; split; [constructor|exact Hnil]|].
  destruct c as [k v|entry]; simpl.
  - destruct (IH (USBBus.set bus k v) Hnil) as [[Hs Hl]|[Hs [root Hl]]].
    + left. split; [now constructor|exact Hl].
    + right. split; [|now exists root]. intros H. inversion H; subst. auto.
  - right. split; [intros H; inversion H as [|? ? Hc]; subst; exact Hc|].
    exists (USBBus.root_hub bus). rewrite calls_list_nonempty.
    + unfold USBBus.add. simpl. rewrite Hnil. now destruct entry.
    + unfold USBBus.add. simpl. rewrite Hnil. now destruct entry.
Qed.

(** X5.  A bus has no child exactly as long as [add] was not called on it;
    from then on its children are one root hub followed by the devices that
    were handed to [add], in the order of the calls.  An [add] of the
    placeholder and a [set] add no child, and no call removes or reorders
    one. *)
Theorem bus_children name cs :
  let bus := calls (USBBus.__init__ name) cs in
  (USBBus.list bus = [] <-> Forall is_set cs)
  /\ tl (USBBus.list bus) = entries cs
  /\ (USBBus.list bus <> [] -> length (USBBus.list bus) = S (length (entries cs))).
Proof.
  intros bus. subst bus.
  destruct (calls_list_fresh cs (USBBus.__init__ name) eq_refl)
    as [[Hs Hl]|[Hs [root Hl]]]; rewrite Hl.
  - split; [tauto|]. split; [|congruence].
    clear Hl. induction Hs as [|c cs Hc Hs IH]; [reflexivity|].
    destruct c; [exact IH|contradiction].
  - split; [split; [discriminate|contradiction]|]. split; reflexivity.
Qed.

(** ** Bus numbers *)








(** ** The text source *)

Lemma break_isspace c : is_break c = true -> Py.isspace c = true.
Proof. destruct c as [[] [] [] [] [] [] [] []]; vm_compute; congruence. Qed.

Lemma splitlines_go_no_break s : forall after_cr,
  Forall (fun l => forall c, is_break c = true -> Py.contains c l = false)
    (splitlines_go after_cr s).
Proof.
  induction s as [|d s IH]; intros after_cr; simpl; [constructor|].
  destruct (after_cr && Ascii.eqb d "010"); [apply IH|].
  destruct (is_break d) eqn:Ed; [constructor; [reflexivity|apply IH]|].
  specialize (IH false).
  destruct (splitlines_go false s) as [|l ls].
  - constructor; [|constructor]. intros c Hc. rewrite contains_cons.
    destruct (Ascii.eqb_spec d c) as [->|]; [congruence|reflexivity].
  - inversion IH as [|? ? Hl Hls]; subst. constructor; [|exact Hls].
    intros c Hc. rewrite contains_cons, (Hl c Hc).
    destruct (Ascii.eqb_spec d c) as [->|]; [congruence|reflexivity].
Qed.

Lemma splitlines_go_first c s after_cr :
  is_break c = false ->
  exists l ls, splitlines_go after_cr (String c s) = String c l :: ls.
Proof.
  intros Hc. simpl.
  destruct (Ascii.eqb_spec c "010") as [->|_]; [discriminate|].
  rewrite andb_false_r, Hc. destruct (splitlines_go false s); eauto.
Qed.

Lemma lstrip_by_first p s c s' : Py.lstrip_by p s = String c s' -> p c = false.
Proof.
  induction s as [|d s IH]; simpl; [discriminate|].
  destruct (p d) eqn:E; [exact IH|]. now intros [= <- <-].
Qed.

Lemma filter_nonempty_Forall (ls : list string) :
  Forall (fun l => l <> EmptyString) (List.filter (fun i => negb (Py.is_empty i)) ls).
Proof.
  induction ls as [|l ls IH]; simpl; [constructor|].
  destruct l; simpl; [exact IH|]. constructor; [discriminate|exact IH].
Qed.

Lemma supported_iff listing :
  supported listing = true
  <-> exists line, In line (splitlines listing) /\ Py.strip line = DATA_TYPE.
Proof.
  unfold supported. generalize (splitlines listing). intros ls.
  induction ls as [|l ls IH]; simpl.
  - split; [discriminate|]. now intros (line & [] & _).
  - destruct (String.eqb_spec (Py.strip l) DATA_TYPE) as [E|E]; simpl.
    + split; [eauto|reflexivity].
    + rewrite IH. split.
      * intros (line & Hin & Hl). eauto.
      * intros (line & [->|Hin] & Hl); [contradiction|eauto].
Qed.

(** X8.  [fetch] raises [NotImplementedError] exactly when no line of the
    list of data types is, once trimmed, the data type.  The lines it returns
    are never empty and hold no line break; there is none exactly when the
    report is blank, and the first one starts with a character that is not a
    blank, whatever precedes the report in the output. *)
Theorem fetch_lines listing report :
  (fetch listing report = None
   <-> ~ exists line, In line (splitlines listing) /\ Py.strip line = DATA_TYPE)
  /\ forall text, fetch listing report = Some text ->
       Forall (fun l => l <> EmptyString
                        /\ forall c, is_break c = true -> Py.contains c l = false) text
       /\ (text = [] <-> Py.strip report = EmptyString)
       /\ (forall l rest, text = l :: rest ->
             exists c s, l = String c s /\ Py.isspace c = false).
Proof.
  unfold fetch. split.
  - rewrite <- supported_iff. destruct (supported listing); split; congruence.
  - intros text. destruct (supported listing); [|discriminate]. intros [= <-].
    split; [|].
    { pose proof (splitlines_go_no_break (Py.strip report) false) as Hb.
      pose proof (filter_nonempty_Forall (splitlines (Py.strip report))) as Hn.
      unfold splitlines in *. revert Hb Hn.
      generalize (splitlines_go false (Py.strip report)). intros ls Hb.
      induction Hb as [|l ls Hl Hb IH]; simpl; [constructor|].
      destruct l; simpl; [exact IH|].
      intros Hn. inversion Hn; subst. constructor; [split; [discriminate|exact Hl]|].
      now apply IH. }
    destruct (Py.strip report) as [|c s] eqn:E.
    { split; [tauto|]. intros l rest. discriminate. }
    assert (Hc : Py.isspace c = false) by exact (lstrip_by_first _ _ _ _ E).
    assert (Hb : is_break c = false).
    { destruct (is_break c) eqn:Eb; [|reflexivity].
      apply break_isspace in Eb. congruence. }
    destruct (splitlines_go_first c s false Hb) as (l & ls & Hs).
    unfold splitlines. rewrite Hs. simpl. split; [split; discriminate|].
    intros l' rest [= <- _]. eauto.
Qed.

(** ** One line of output per device *)

Lemma one_line_cons c s :
  one_line (String c s) <-> Ascii.eqb c "010" = false /\ one_line s.
Proof. unfold one_line. rewrite contains_cons, orb_false_iff. tauto. Qed.

Lemma one_line_app a b : one_line a -> one_line b -> one_line (a +:+ b).
Proof.
  intros Ha Hb. induction a as [|c a IH]; [exact Hb|].
  change (String c a +:+ b) with (String c (a +:+ b)).
  apply one_line_cons in Ha as [Hc Ha]. apply one_line_cons. auto.
Qed.

Lemma one_line_newlines s : one_line s -> newlines s = 0.
Proof.
  induction s as [|c s IH]; [reflexivity|].
  intros [Hc Hs]%one_line_cons. simpl. now rewrite Hc, IH.
Qed.

Lemma newlines_app a b : newlines (a +:+ b) = newlines a + newlines b.
Proof.
  induction a as [|c a IH]; [reflexivity|].
  change (String c a +:+ b) with (String c (a +:+ b)). simpl. rewrite IH. lia.
Qed.

Lemma one_line_lstrip_by p s : one_line s -> one_line (Py.lstrip_by p s).
Proof.
  induction s as [|c s IH]; [auto|]. intros H. simpl.
  destruct (p c); [|exact H]. apply IH. now apply one_line_cons in H.
Qed.

Lemma one_line_rstrip_by p s : one_line s -> one_line (Py.rstrip_by p s).
Proof.
  induction s as [|c s IH]; [auto|]. intros [Hc Hs]%one_line_cons. simpl.
  destruct (Py.is_empty (Py.rstrip_by p s) && p c); [reflexivity|].
  apply one_line_cons. auto.
Qed.

Lemma one_line_strip_by p s : one_line s -> one_line (Py.strip_by p s).
Proof. intros H. now apply one_line_lstrip_by, one_line_rstrip_by. Qed.

Lemma one_line_partition sep s a b :
  one_line s -> Py.partition sep s = Some (a, b) -> one_line a /\ one_line b.
Proof.
  revert a. induction s as [|c s IH]; intros a; [discriminate|].
  intros [Hc Hs]%one_line_cons. simpl.
  destruct (Ascii.eqb c sep); [intros [= <- <-]; now split|].
  destruct (Py.partition sep s) as [[a' b']|]; [|discriminate].
  intros [= <- <-]. destruct (IH a' Hs eq_refl) as [Ha Hb].
  split; [|exact Hb]. apply one_line_cons. auto.
Qed.

Lemma one_line_first sep s : one_line s -> one_line (Py.first (Py.split1 sep s)).
Proof.
  intros H. unfold Py.split1.
  destruct (Py.partition sep s) as [[a b]|] eqn:E; [|exact H].
  exact (proj1 (one_line_partition _ _ _ _ H E)).
Qed.

Lemma one_line_last sep s : one_line s -> one_line (Py.last (Py.split1 sep s)).
Proof.
  intros H. unfold Py.split1.
  destruct (Py.partition sep s) as [[a b]|] eqn:E; [|exact H].
  exact (proj2 (one_line_partition _ _ _ _ H E)).
Qed.

Lemma one_line_drop n : forall s, one_line s -> one_line (Py.drop n s).
Proof.
  induction n as [|n IH]; intros s H; [exact H|].
  destruct s as [|c s]; [exact H|]. simpl. apply IH. now apply one_line_cons in H.
Qed.

Lemma one_line_init s : one_line s -> one_line (Py.init s).
Proof.
  induction s as [|c s IH]; [auto|]. intros [Hc Hs]%one_line_cons. simpl.
  destruct (Py.is_empty s); [reflexivity|]. apply one_line_cons. auto.
Qed.

Lemma one_line_dec_digits n : one_line (Py.dec_digits n).
Proof.
  unfold Py.dec_digits.
  assert (H : forall d, one_line (DecimalString.NilEmpty.string_of_uint d)).
  { induction d; [reflexivity|..]; simpl; apply one_line_cons; auto. }
  destruct (N.to_uint n); try apply H. reflexivity.
Qed.

Lemma one_line_hex_digits n : one_line (Py.hex_digits n).
Proof.
  unfold Py.hex_digits.
  assert (H : forall d, one_line (HexadecimalString.NilEmpty.string_of_uint d)).
  { induction d; [reflexivity|..]; simpl; apply one_line_cons; auto. }
  destruct (N.to_hex_uint n); try apply H. reflexivity.
Qed.

Lemma one_line_format_int digits w z :
  (forall n, one_line (digits n)) -> one_line (Py.format_int digits w z).
Proof.
  intros Hd.
  assert (Hz : forall k s, one_line s -> one_line (Py.zfill k s)).
  { intros k s Hs. unfold Py.zfill. apply one_line_app; [|exact Hs].
    induction (k - String.length s) as [|m IH]; [reflexivity|].
    simpl. apply one_line_cons. auto. }
  unfold Py.format_int. destruct (z <? 0)%Z; [apply one_line_cons; split; auto|];
    apply Hz, Hd.
Qed.

Lemma one_line_get (d : dict) key default :
  clean_dict d -> one_line default -> one_line (get d key default).
Proof.
  intros Hd Hdef. unfold get. destruct (d !! key) as [v|] eqn:E; [|exact Hdef].
  exact (Hd key v E).
Qed.

Lemma clean_controllers : clean_dict USBDevice.controllers.
Proof.
  unfold clean_dict, USBDevice.controllers.
  repeat (apply map_Forall_insert_2; [reflexivity|]). apply map_Forall_empty.
Qed.

Ltac solve_one_line :=
  repeat first
    [ assumption
    | reflexivity
    | exact clean_controllers
    | apply one_line_app
    | apply one_line_drop
    | apply one_line_first
    | apply one_line_last
    | apply one_line_strip_by
    | apply one_line_get
    | apply one_line_format_int
    | apply one_line_dec_digits
    | apply one_line_hex_digits ].

Ltac ok_inv E :=
  match type of E with
  | Ok _ = Ok ?f =>
      apply (f_equal (fun o => match o with Ok x => x | _ => f end)) in E;
      cbv beta iota in E; subst f
  end.

(** A device of a clean bus prints on one line. *)
Lemma one_line_str bus dev line :
  clean_dict bus -> clean_dev dev ->
  USBDevice.__str__ bus dev = Ok line -> one_line line.
Proof.
  intros Hb [Hn Ha]. unfold USBDevice.__str__.
  destruct (USBDevice.locals bus dev) as [f| |] eqn:E; try discriminate.
  intros [= <-].
  assert (Hf : one_line (USBDevice.busId f) /\ one_line (USBDevice.devId f)
               /\ one_line (USBDevice.vndId f) /\ one_line (USBDevice.prdId f)
               /\ one_line (USBDevice.mfrNm f) /\ one_line (USBDevice.serNr f)).
  { revert E. unfold USBDevice.locals.
    assert (Hser : one_line
                     (if Py.is_empty (get (USBDevice.attr dev) "Serial Number" "")
                      then ""
                      else ", Serial: " +:+ get (USBDevice.attr dev) "Serial Number" "")).
    { destruct (Py.is_empty _); solve_one_line. }
    destruct (has (USBDevice.attr dev) "Product ID").
    - destruct (value_error (Py.int 16 _)) as [b| |]; cbn [bind]; try discriminate.
      destruct (has (USBDevice.attr dev) "Location ID"
                && Py.contains "/" (get (USBDevice.attr dev) "Location ID" "")).
      + destruct (value_error (Py.int 10 _)) as [n| |]; cbn [bind]; try discriminate.
        intros E; ok_inv E.
        cbn [USBDevice.busId USBDevice.devId USBDevice.vndId USBDevice.prdId
             USBDevice.mfrNm USBDevice.serNr].
        repeat split; solve_one_line.
      + cbn [bind]. intros E; ok_inv E.
        cbn [USBDevice.busId USBDevice.devId USBDevice.vndId USBDevice.prdId
             USBDevice.mfrNm USBDevice.serNr].
        repeat split; solve_one_line.
    - destruct (value_error (Py.int 16 _)) as [b| |]; cbn [bind]; try discriminate.
      destruct (value_error (Py.int 10 _)) as [n| |]; cbn [bind]; try discriminate.
      intros E; ok_inv E.
      cbn [USBDevice.busId USBDevice.devId USBDevice.vndId USBDevice.prdId
           USBDevice.mfrNm USBDevice.serNr].
      repeat split; solve_one_line. }
  destruct Hf as (H1 & H2 & H3 & H4 & H5 & H6).
  unfold USBDevice.render, USBDevice.mfr. solve_one_line.
Qed.

Lemma one_line_strip s : one_line s -> one_line (Py.strip s).
Proof. apply one_line_strip_by. Qed.

Lemma entry_one_line l : one_line l -> one_line (snd (Report.entry l)).
Proof.
  intros H. unfold Report.entry.
  destruct (Py.partition ":" (Py.strip l)) as [[k v]|] eqn:E; [|reflexivity].
  apply one_line_strip.
  exact (proj2 (one_line_partition _ _ _ _ (one_line_strip _ H) E)).
Qed.

Lemma attrs_of_clean ls : forall d,
  Forall one_line ls -> clean_dict d -> clean_dict (Report.attrs_of d ls).
Proof.
  induction ls as [|l ls IH]; intros d Hall Hd; [exact Hd|].
  inversion Hall as [|? ? Hl Hls]; subst. unfold Report.attrs_of. simpl.
  apply IH; [exact Hls|]. apply map_Forall_insert_2; [|exact Hd].
  now apply entry_one_line.
Qed.

Lemma clean_empty : clean_dict ∅.
Proof. apply map_Forall_empty. Qed.

Lemma tree_go_clean text :
  Forall one_line text ->
  Forall one_line (fst (fst (Report.tree_go text)))
  /\ Forall clean_dev (snd (fst (Report.tree_go text)))
  /\ Forall clean_bus (snd (Report.tree_go text)).
Proof.
  induction text as [|l text IH]; intros Hall; [simpl; auto|].
  inversion Hall as [|? ? Hl Hrest]; subst. destruct (IH Hrest) as (Hk & Hd & Hb).
  simpl. destruct (Report.tree_go text) as [[kvs devs] buses]. simpl in *.
  assert (Hname : one_line (Py.init (Py.strip l)))
    by now apply one_line_init, one_line_strip.
  assert (Hattr : clean_dict (Report.attrs_of ∅ kvs))
    by (apply attrs_of_clean; [exact Hk|exact clean_empty]).
  destruct (Grammar.is_bus_header l); simpl.
  - split; [constructor|]. split; [constructor|].
    constructor; [|exact Hb]. split; [exact Hattr|].
    constructor; [split; assumption|exact Hd].
  - destruct (Grammar.is_header l); simpl.
    + split; [constructor|]. split; [|exact Hb].
      constructor; [split; assumption|exact Hd].
    + split; [now constructor|]. split; assumption.
Qed.

Lemma parse_clean text usb text' :
  Forall one_line text -> parse text = Ok (usb, text') ->
  Forall clean_bus (USB.list usb).
Proof.
  intros Hall (rest & -> & Hp)%parse_inv.
  pose proof (parse_loop_splittable _ _ _ _ Hp) as Hs.
  rewrite parse_loop_tree in Hp by (lia || exact Hs). injection Hp as <- _.
  inversion Hall; subst. simpl. now apply tree_go_clean.
Qed.

Lemma collect_Forall {A B} (P : A -> Prop) (Q : B -> Prop) (f : A -> outcome B) l :
  (forall a b, P a -> f a = Ok b -> Q b) ->
  forall r, Forall P l -> collect f l = Ok r -> Forall Q r.
Proof.
  intros Hf. induction l as [|a l IH]; intros r Hall; simpl.
  - intros [= <-]. constructor.
  - inversion Hall as [|? ? Ha Hl]; subst.
    destruct (f a) as [b| |] eqn:E; simpl; try discriminate.
    destruct (collect f l) as [bs| |]; simpl; try discriminate.
    intros [= <-]. constructor; [exact (Hf a b Ha E)|now apply IH].
Qed.

Lemma all_lines_one_line usb lines :
  Forall clean_bus (USB.list usb) -> all_lines usb = Ok lines -> Forall one_line lines.
Proof.
  unfold all_lines. intros Hall.
  destruct (collect USBBus.lines (USB.list usb)) as [ls| |] eqn:E; simpl;
    try discriminate.
  intros [= <-]. apply Forall_concat.
  apply (collect_Forall clean_bus (Forall one_line) USBBus.lines (USB.list usb));
    [|exact Hall|exact E].
  intros bus l [Ha Hd] Hl. unfold USBBus.lines in Hl.
  apply (collect_Forall clean_dev one_line (USBDevice.__str__ (USBBus.attr bus))
           (USBBus.list bus)); [|exact Hd|exact Hl].
  intros dev line Hdev. now apply one_line_str.
Qed.

Lemma newlines_join lines :
  Forall one_line lines -> newlines (Py.join nl lines) = length lines - 1.
Proof.
  induction lines as [|l lines IH]; [reflexivity|]. intros Hall.
  inversion Hall as [|? ? Hl Hls]; subst.
  destruct lines as [|l' lines]; [simpl; now apply one_line_newlines|].
  rewrite join_cons by discriminate.
  rewrite !newlines_app, (one_line_newlines l Hl), (IH Hls). simpl. lia.
Qed.

Lemma str_starts_with_Bus bus dev line :
  USBDevice.__str__ bus dev = Ok line -> exists rest, line = "Bus " +:+ rest.
Proof.
  unfold USBDevice.__str__.
  destruct (USBDevice.locals bus dev) as [f| |]; cbn [bind]; try discriminate.
  intros E. ok_inv E. unfold USBDevice.render. eexists. reflexivity.
Qed.

Lemma all_lines_start_with_Bus usb lines :
  all_lines usb = Ok lines -> Forall (fun line => exists rest, line = "Bus " +:+ rest) lines.
Proof.
  unfold all_lines.
  destruct (collect USBBus.lines (USB.list usb)) as [ls| |] eqn:E; simpl;
    try discriminate.
  intros [= <-]. apply Forall_concat.
  apply (collect_Forall (fun _ => True)
           (Forall (fun line => exists rest, line = "Bus " +:+ rest))
           USBBus.lines (USB.list usb)); [|now apply Forall_forall|exact E].
  intros bus l _ Hl. unfold USBBus.lines in Hl.
  apply (collect_Forall (fun _ => True) (fun line => exists rest, line = "Bus " +:+ rest)
           (USBDevice.__str__ (USBBus.attr bus)) (USBBus.list bus));
    [|now apply Forall_forall|exact Hl].
  intros dev line _. apply str_starts_with_Bus.
Qed.

(** X9.  When no line of the report holds a line feed, the string that is
    printed is the device lines joined by single line feeds; there is
    exactly one device line per device header under a bus plus one per bus
    header; and every device line starts with ["Bus "] and holds no line
    feed.  So the output has exactly that many lines: no line is split, none
    is empty, and no line feed comes first or last. *)
Theorem printed_lines text usb text' s :
  Forall one_line text ->
  parse text = Ok (usb, text') ->
  USB.__str__ usb = Ok s ->
  exists lines,
    all_lines usb = Ok lines
    /\ s = Py.join nl lines
    /\ Forall (fun line => one_line line /\ exists rest, line = "Bus " +:+ rest) lines
    /\ length lines
       = length (List.filter Grammar.is_device_header (Grammar.from_first_bus (tail text)))
         + length (List.filter Grammar.is_bus_header (tail text))
    /\ (lines <> [] -> S (newlines s) = length lines).
Proof.
  intros Hall Hp Hs.
  destruct (parse_shape _ _ _ Hp) as [_ Hshape].
  destruct (shape_children _ _ Hshape) as [Hne Hsum].
  destruct (USB_str_lines usb s Hne Hs) as (lines & Hl & -> & Hlen).
  pose proof (all_lines_one_line usb lines (parse_clean _ _ _ Hall Hp) Hl) as Hone.
  exists lines. split; [exact Hl|]. split; [reflexivity|]. split; [|split].
  - pose proof (all_lines_start_with_Bus usb lines Hl) as Hbus.
    rewrite Forall_forall in Hone, Hbus. apply Forall_forall. intros line Hin.
    split; [now apply Hone|now apply Hbus].
  - rewrite Hlen, <- explicit_devices_count, <- buses_count.
    unfold children. now rewrite Hsum.
  - intros Hnil. rewrite (newlines_join lines Hone).
    destruct lines as [|l lines]; [contradiction|]. simpl. lia.
Qed.

Lemma printed_lines_sample :
  exists lines,
    all_lines (parsed sample) = Ok lines
    /\ printed sample = Py.join nl lines
    /\ Forall (fun line => one_line line /\ exists rest, line = "Bus " +:+ rest) lines
    /\ length lines
       = length (List.filter Grammar.is_device_header
                   (Grammar.from_first_bus (tail sample)))
         + length (List.filter Grammar.is_bus_header (tail sample))
    /\ (lines <> [] -> S (newlines (printed sample)) = length lines).
Proof.
  apply (printed_lines sample (parsed sample) [] (printed sample));
    [repeat constructor | vm_compute; reflexivity | vm_compute; reflexivity].
Defined.

(** ** [parse_dev] and [parse_bus] on their own *)

Lemma parse_dev_loop_queue text : forall bus dev bus' text',
  parse_dev_loop bus dev text = Ok (bus', text') ->
  text' = put_back (from_first_header text).
Proof.
  induction text as [|l text IH]; intros bus dev bus' text'; cbn [parse_dev_loop].
  - now intros [= _ <-].
  - simpl. unfold Grammar.is_header.
    destruct (Py.endswith (Py.strip l) ":"); [now intros [= _ <-]|].
    destruct (key_value (Py.strip l)) as [[k v]|e|]; simpl; try discriminate.
    apply IH.
Qed.

Lemma from_first_bus_put_back text :
  put_back (Grammar.from_first_bus (put_back text))
  = put_back (Grammar.from_first_bus text).
Proof.
  destruct text as [|l text]; [reflexivity|]. simpl.
  unfold Grammar.is_bus_header. rewrite strip_idem.
  destruct (Py.endswith (Py.strip l) "Bus:"); [|reflexivity].
  simpl. now rewrite strip_idem.
Qed.

Lemma from_first_bus_header text :
  Grammar.from_first_bus (from_first_header text) = Grammar.from_first_bus text.
Proof.
  induction text as [|l text IH]; [reflexivity|]. simpl.
  destruct (Grammar.is_header l) eqn:Eh; [reflexivity|].
  now rewrite (not_header_not_bus l Eh).
Qed.

Lemma parse_bus_loop_queue n : forall sys bus text sys' text',
  parse_bus_loop n sys bus text = Ok (sys', text') ->
  text' = put_back (Grammar.from_first_bus text).
Proof.
  induction n as [|n IH]; intros sys bus text sys' text'; [discriminate|].
  destruct text as [|l text]; cbn [parse_bus_loop]; [now intros [= _ <-]|].
  simpl. unfold Grammar.is_bus_header.
  destruct (Py.endswith (Py.strip l) "Bus:"); [now intros [= _ <-]|].
  destruct (Py.endswith (Py.strip l) ":").
  - unfold parse_dev.
    destruct (parse_dev_loop bus _ text) as [[bus1 text1]|e|] eqn:Ed; simpl;
      try discriminate.
    apply parse_dev_loop_queue in Ed. intros Hp%IH. subst.
    now rewrite from_first_bus_put_back, from_first_bus_header.
  - destruct (key_value (Py.strip l)) as [[k v]|e|]; simpl; try discriminate.
    apply IH.
Qed.

Lemma key_value_no_colon line :
  Py.contains ":" line = false -> key_value line = Raise ValueError.
Proof.
  unfold Py.contains, key_value, Py.split1.
  now destruct (Py.partition ":" line) as [[a b]|].
Qed.

Lemma no_colon_not_header l : Py.contains ":" l = false -> Grammar.is_header l = false.
Proof.
  intros H. unfold Grammar.is_header.
  destruct (Py.endswith (Py.strip l) ":") eqn:E; [|reflexivity].
  apply endswith_colon_contains in E. rewrite contains_colon_strip in E. congruence.
Qed.

Lemma parse_dev_loop_section kvs : forall bus dev,
  Forall (fun l => Grammar.is_header l = false /\ Py.contains ":" l = true) kvs ->
  (forall rest,
     match rest with [] => True | h :: _ => Grammar.is_header h = true end ->
     parse_dev_loop bus dev (kvs ++ rest)
     = Ok (USBBus.add bus (Some {| USBDevice.name := USBDevice.name dev;
                                   USBDevice.attr :=
                                     Report.attrs_of (USBDevice.attr dev) kvs |}),
           put_back rest))
  /\ (forall bad rest,
        Py.contains ":" bad = false ->
        parse_dev_loop bus dev (kvs ++ bad :: rest) = Raise ValueError).
Proof.
  induction kvs as [|l kvs IH]; intros bus dev Hall.
  - split.
    + intros [|h t] Hh; destruct dev; simpl; [reflexivity|].
      unfold Grammar.is_header in Hh. now rewrite Hh.
    + intros bad rest Hbad. simpl.
      pose proof (no_colon_not_header bad Hbad) as Hn. unfold Grammar.is_header in Hn.
      rewrite Hn, key_value_no_colon; [reflexivity|].
      now rewrite contains_colon_strip.
  - inversion Hall as [|? ? [Hh Hc] Hrest]; subst.
    assert (Hs : Grammar.splittable l).
    { unfold Grammar.splittable. rewrite Hc. apply orb_true_r. }
    unfold Grammar.is_header in Hh.
    pose proof (key_value_entry l Hs) as Hkv.
    destruct (Report.entry l) as [k v] eqn:Ee.
    destruct (IH bus (USBDevice.set dev k v) Hrest) as [IH1 IH2].
    split.
    + intros rest Hb. simpl. rewrite Hh, Hkv. cbn [bind]. rewrite (IH1 rest Hb).
      unfold Report.attrs_of. simpl. now rewrite Ee.
    + intros bad rest Hbad. simpl. rewrite Hh, Hkv. cbn [bind].
      exact (IH2 bad rest Hbad).
Qed.

(** X10.  [parse_dev] takes the key/value lines up to the next line that
    ends in a colon and nothing more: it attaches to the bus one device with
    the name it was given and those lines as attributes (a later line winning
    over an earlier one with the same key), and leaves the queue starting at
    that header, trimmed; at the end of the queue it attaches the device all
    the same.  A line without a colon before the header makes it raise
    [ValueError]. *)
Theorem parse_dev_section bus name kvs :
  Forall (fun l => Grammar.is_header l = false /\ Py.contains ":" l = true) kvs ->
  (forall rest,
     match rest with [] => True | h :: _ => Grammar.is_header h = true end ->
     parse_dev bus name (kvs ++ rest)
     = Ok (USBBus.add bus (Some {| USBDevice.name := name;
                                   USBDevice.attr := Report.attrs_of ∅ kvs |}),
           put_back rest))
  /\ (forall bad rest,
        Py.contains ":" bad = false ->
        parse_dev bus name (kvs ++ bad :: rest) = Raise ValueError).
Proof.
  intros Hall. exact (parse_dev_loop_section kvs bus (USBDevice.__init__ name) Hall).
Qed.

Lemma parse_dev_section_sample :
  parse_dev (USBBus.__init__ "X Bus") "Dev"
    (["  Speed: slow"; "  Speed: fast"] ++ ["  Next:"; "  Version: 1"])
  = Ok (USBBus.add (USBBus.__init__ "X Bus")
          (Some {| USBDevice.name := "Dev";
                   USBDevice.attr := <["Speed" := "fast"]> ∅ |}),
        ["Next:"; "  Version: 1"]).
Proof.
  apply (parse_dev_section (USBBus.__init__ "X Bus") "Dev"
           ["  Speed: slow"; "  Speed: fast"]).
  - repeat constructor.
  - reflexivity.
Defined.

(** X11.  [parse_bus], on lines that each end in a colon or contain one,
    takes the lines up to the next line that ends in ["Bus:"]: it attaches to
    the system one bus with the name it was given, the key/value lines that
    precede the first header as attributes, the root hub that copies them,
    and one device per header; it leaves the queue starting at that bus
    header, trimmed. *)
Theorem parse_bus_section sys name text :
  Forall Grammar.splittable text ->
  let attr := Report.attrs_of ∅ (fst (fst (Report.tree_go text))) in
  parse_bus sys name text
  = Ok (USB.add sys
          {| USBBus.name := name; USBBus.attr := attr;
             USBBus.list := {| USBDevice.name := name; USBDevice.attr := attr |}
                            :: snd (fst (Report.tree_go text)) |},
        put_back (Grammar.from_first_bus text)).
Proof.
  intros Hall attr. subst attr. unfold parse_bus.
  destruct (Report.tree_go text) as [[kvs devs] buses] eqn:Et.
  destruct (parse_bus_loop_tree (S (length text)) sys (USBBus.__init__ name) text
              kvs devs buses ltac:(lia) Hall (or_introl eq_refl) Et)
    as (text' & Hp & _).
  rewrite Hp. apply parse_bus_loop_queue in Hp. now subst.
Qed.

Lemma parse_bus_section_sample :
  parse_bus USB.__init__ "X Bus" ["A: 1"; "Dev:"; "B: 2"; "  Y Bus:"; "C: 3"]
  = Ok (USB.add USB.__init__
          {| USBBus.name := "X Bus"; USBBus.attr := <["A" := "1"]> ∅;
             USBBus.list :=
               [{| USBDevice.name := "X Bus"; USBDevice.attr := <["A" := "1"]> ∅ |};
                {| USBDevice.name := "Dev"; USBDevice.attr := <["B" := "2"]> ∅ |}] |},
        ["Y Bus:"; "C: 3"]).
Proof.
  apply (parse_bus_section USB.__init__ "X Bus"
           ["A: 1"; "Dev:"; "B: 2"; "  Y Bus:"; "C: 3"]).
  repeat constructor.
Defined.

(** ** The outcomes of the program *)

Lemma str_outcome bus dev :
  USBDevice.__str__ bus dev <> Fuel
  /\ forall e, USBDevice.__str__ bus dev = Raise e -> e = ValueError.
Proof.
  unfold USBDevice.__str__, USBDevice.locals.
  destruct (has (USBDevice.attr dev) "Product ID").
  - destruct (Py.int 16 _) as [b|]; cbn [value_error bind]; [|split; congruence].
    destruct (has (USBDevice.attr dev) "Location ID" && _); cbn [bind];
      [|split; congruence].
    destruct (Py.int 10 _) as [n|]; cbn [value_error bind]; split; congruence.
  - destruct (Py.int 16 _) as [b|]; cbn [value_error bind]; [|split; congruence].
    destruct (Py.int 10 _) as [n|]; cbn [value_error bind]; split; congruence.
Qed.

Lemma collect_outcome {A B} (f : A -> outcome B) l :
  (forall a, f a <> Fuel /\ forall e, f a = Raise e -> e = ValueError) ->
  collect f l <> Fuel /\ forall e, collect f l = Raise e -> e = ValueError.
Proof.
  intros Hf. induction l as [|a l [IH1 IH2]]; simpl; [split; congruence|].
  destruct (Hf a) as [H1 H2]. destruct (f a) as [b|e|]; simpl; [|split|congruence].
  - destruct (collect f l) as [bs|e|]; simpl; [split; congruence|split|congruence].
    + congruence.
    + intros e' [= <-]. now apply IH2.
  - congruence.
  - intros e' [= <-]. now apply H2.
Qed.

Lemma USB_str_outcome usb :
  USB.__str__ usb <> Fuel /\ forall e, USB.__str__ usb = Raise e -> e = ValueError.
Proof.
  unfold USB.__str__.
  destruct (collect_outcome USBBus.__str__ (USB.list usb)) as [H1 H2].
  { intros bus. unfold USBBus.__str__, USBBus.lines.
    destruct (collect_outcome (USBDevice.__str__ (USBBus.attr bus)) (USBBus.list bus)
                (str_outcome (USBBus.attr bus))) as [H1 H2].
    destruct (collect _ (USBBus.list bus)) as [ls|e|]; simpl; [split|split|];
      congruence || (try (intros e' [= <-]; now apply H2)). }
  destruct (collect USBBus.__str__ (USB.list usb)) as [ls|e|]; simpl; [split|split|];
    congruence || (try (intros e' [= <-]; now apply H2)).
Qed.

(** The main block on a list of lines prints all or nothing. *)
Lemma main_outcome text :
  (exists usb s, parse text = Ok (usb, []) /\ USB.__str__ usb = Ok s
                 /\ main text = ([s], Ok tt))
  \/ (hd_error text <> Some "USB:" /\ main text = ([], Raise AssertionError))
  \/ (hd_error text = Some "USB:" /\ main text = ([], Raise ValueError)).
Proof.
  unfold main. destruct text as [|l rest].
  { right. left. split; [discriminate|reflexivity]. }
  unfold parse. destruct (String.eqb_spec l "USB:") as [->|Hne].
  - pose proof (parse_loop_spec (S (length rest)) USB.__init__ rest ltac:(lia)) as L.
    destruct (parse_loop _ _ rest) as [[usb text']|e|]; [|right; right|contradiction].
    + destruct L as [-> _]. destruct (USB_str_outcome usb) as [H1 H2].
      destruct (USB.__str__ usb) as [s|e|] eqn:E; [left; eauto| |congruence].
      right. right. now rewrite (H2 e eq_refl).
    + now rewrite L.
  - right. left. split; [now intros [= E]|reflexivity].
Qed.

(** X12.  Once both calls of [run] have handed back their text, the program
    prints all or nothing.  Without the data type in the list, it prints
    nothing and ends with [NotImplementedError].  Otherwise, on the lines
    [fetch] makes of the report: either it prints one string and ends
    normally, or it prints nothing and ends with [AssertionError] (no anchor)
    or [ValueError] (a line without a colon, or a number that does not read,
    in any device).  Device lines that were already formatted when a later
    device fails are not printed. *)
Theorem program_all_or_nothing listing report :
  (supported listing = false /\ program listing report = ([], NotImplementedError))
  \/ (supported listing = true
      /\ exists text,
           fetch listing report = Some text
           /\ ((exists usb s, parse text = Ok (usb, []) /\ USB.__str__ usb = Ok s
                              /\ program listing report = ([s], Done))
               \/ (hd_error text <> Some "USB:"
                   /\ program listing report = ([], Failed AssertionError))
               \/ (hd_error text = Some "USB:"
                   /\ program listing report = ([], Failed ValueError)))).
Proof.
  unfold program, fetch. destruct (supported listing); [right|left; now split].
  split; [reflexivity|]. eexists. split; [reflexivity|].
  match goal with |- context [main ?t] => destruct (main_outcome t) as [H|[H|H]] end.
  - destruct H as (usb & s & Hp & Hs & ->). left. now exists usb, s.
  - destruct H as [Hh ->]. right. left. now split.
  - destruct H as [Hh ->]. right. right. now split.
Qed.

Lemma dev_slot_outcome (attr : dict) :
  (if has attr "Location ID" && Py.contains "/" (get attr "Location ID" "")
   then bind (value_error (Py.int 10 (Py.strip (Py.last (Py.split1 "/"
                 (get attr "Location ID" ""))))))
          (fun n => Ok (Py.format_x 3 n))
   else Ok "000")
  = value_error (Spec.slot_read_in 10 attr).
Proof.
  unfold has, get, Py.contains, Py.split1, Spec.slot_read_in.
  destruct (attr !! "Location ID") as [loc|]; [|reflexivity]. simpl.
  destruct (Py.partition "/" loc) as [[before after]|]; [|reflexivity]. simpl.
  change (Py.last [before; after]) with after.
  now destruct (Py.int 10 (Py.strip after)).
Qed.

(** Numbers beyond the limit: a bus number of 4302 decimal digits (16 to the
    power 3572) and a slot of 4301 digits; the devices of the sample are
    within it. *)
Example limit_values :
  Limit.within (<["Bus Number" := String "1" (Py.zeros 3572)]> ∅) bare = false
  /\ Limit.within ∅
       (USBDevice.set ethernet "Location ID" ("0x1 / 1" +:+ Py.zeros 4300)) = false
  /\ Limit.within ∅ ethernet = true
  /\ Limit.within sample_bus sample_hub = true.
Proof. vm_compute. repeat split; reflexivity. Qed.

(** X13.  As long as the numbers of a device stay within the interpreter's
    limit on decimal conversions, formatting it fails, with [ValueError], for
    two reasons only.  With a ["Product ID"]: the text before the first slash
    of ["Location ID"] (of the bus's ["Bus Number"], ["0"] by default, without
    a location) is no number in base 16, or the text after the slash is no
    number in base 10.  Without a ["Product ID"]: the bus's ["Bus Number"]
    (["3e7"] by default) is no number in base 16.  No missing or odd vendor,
    product, manufacturer or serial number makes it fail. *)
Theorem format_fails_on_numbers_only bus dev :
  Limit.within bus dev = true ->
  (USBDevice.__str__ bus dev = Raise ValueError
   <-> if has (USBDevice.attr dev) "Product ID"
       then Py.int 16 (Py.first (Py.split1 "/"
              (get (USBDevice.attr dev) "Location ID"
                 (get bus "Bus Number" "0" +:+ "/x")))) = None
            \/ Spec.slot_read_in 10 (USBDevice.attr dev) = None
       else Py.int 16 (get bus "Bus Number" "3e7") = None).
Proof.
  intros _. unfold USBDevice.__str__, USBDevice.locals.
  destruct (has (USBDevice.attr dev) "Product ID").
  - destruct (Py.int 16 _) as [b|]; cbn [value_error bind]; [|tauto].
    rewrite dev_slot_outcome.
    destruct (Spec.slot_read_in 10 (USBDevice.attr dev)) as [slot|];
      cbn [value_error bind]; [|tauto].
    split; [discriminate|]. intros [H|H]; discriminate.
  - destruct (Py.int 16 _) as [b|]; cbn [value_error bind]; [|tauto].
    rewrite int_format_d. cbn [value_error bind]. split; discriminate.
Qed.

Lemma format_fails_on_numbers_only_sample :
  (USBDevice.__str__ ∅ ethernet = Raise ValueError
   <-> Py.int 16 "0x14500000 " = None
       \/ Spec.slot_read_in 10 (USBDevice.attr ethernet) = None)
  /\ (USBDevice.__str__ (<["Bus Number" := "zz"]> ∅) bare = Raise ValueError
      <-> Py.int 16 (get (<["Bus Number" := "zz"]> ∅) "Bus Number" "3e7") = None).
Proof.
  split.
  - apply (format_fails_on_numbers_only ∅ ethernet). vm_compute. reflexivity.
  - apply (format_fails_on_numbers_only (<["Bus Number" := "zz"]> ∅) bare).
    vm_compute. reflexivity.
Defined.

(** ** The lines under the first device header of a bus *)

Lemma key_value_line_splittable l : key_value_line l -> Grammar.splittable l.
Proof. intros [_ Hc]. unfold Grammar.splittable. rewrite Hc. apply orb_true_r. Qed.

Lemma tree_go_key_values kvs text :
  Forall key_value_line kvs ->
  Report.tree_go (kvs ++ text)
  = (kvs ++ fst (fst (Report.tree_go text)),
     snd (fst (Report.tree_go text)), snd (Report.tree_go text)).
Proof.
  induction 1 as [|l kvs [Hh Hc] Hall IH]; simpl.
  - now destruct (Report.tree_go text) as [[k d] b].
  - now rewrite IH, (not_header_not_bus l Hh), Hh.
Qed.

Lemma tree_go_header text :
  match text with [] => True | h :: _ => Grammar.is_header h = true end ->
  fst (fst (Report.tree_go text)) = [].
Proof.
  destruct text as [|h t]; [reflexivity|]. intros Hh. simpl. rewrite Hh.
  destruct (Report.tree_go t) as [[k d] b].
  now destruct (Grammar.is_bus_header h).
Qed.

Lemma from_first_bus_key_values kvs text :
  Forall key_value_line kvs ->
  Grammar.from_first_bus (kvs ++ text) = Grammar.from_first_bus text.
Proof.
  induction 1 as [|l kvs [Hh Hc] Hall IH]; simpl; [reflexivity|].
  now rewrite (not_header_not_bus l Hh).
Qed.

(** C9, as amended.  In a parsed report the first child of every bus has the
    name of the bus and a copy of its attributes.  Those are the key/value
    lines that stand between the bus header and the first device header, the
    attributes of the bus when [add] is first called: the key/value lines
    under the first device header are set on that device, and neither on the
    bus nor on its first child, whatever follows. *)
Theorem first_child_copies_bus :
  (forall text usb text',
     parse text = Ok (usb, text') ->
     Forall (fun bus => exists devs,
               USBBus.list bus
               = {| USBDevice.name := USBBus.name bus;
                    USBDevice.attr := USBBus.attr bus |} :: devs)
            (USB.list usb))
  /\ (forall sys name early h late rest,
        Forall key_value_line early ->
        Grammar.is_device_header h = true ->
        Forall key_value_line late ->
        match rest with [] => True | r :: _ => Grammar.is_header r = true end ->
        Forall Grammar.splittable rest ->
        parse_bus sys name (early ++ h :: late ++ rest)
        = Ok (USB.add sys
                {| USBBus.name := name;
                   USBBus.attr := Report.attrs_of ∅ early;
                   USBBus.list :=
                     {| USBDevice.name := name;
                        USBDevice.attr := Report.attrs_of ∅ early |}
                     :: {| USBDevice.name := Py.init (Py.strip h);
                           USBDevice.attr := Report.attrs_of ∅ late |}
                     :: snd (fst (Report.tree_go rest)) |},
              put_back (Grammar.from_first_bus rest))).
Proof.
  split.
  - intros text usb text' Hp. apply parse_rooted in Hp.
    rewrite Forall_forall in Hp. apply Forall_forall. intros bus Hin.
    specialize (Hp bus Hin). unfold rooted in Hp. rewrite root_hub_copy in Hp.
    destruct (USBBus.list bus) as [|d devs]; [discriminate|].
    injection Hp as ->. now exists devs.
  - intros sys name early h late rest Hearly Hh Hlate Hrest Hall.
    unfold Grammar.is_device_header in Hh.
    apply andb_true_iff in Hh as [Hh Hb]. apply negb_true_iff in Hb.
    set (text := early ++ h :: late ++ rest).
    assert (Hs : Forall Grammar.splittable text).
    { apply Forall_app. split.
      - eapply Forall_impl; [exact Hearly|]. apply key_value_line_splittable.
      - constructor; [apply header_splittable; exact Hh|].
        apply Forall_app. split; [|exact Hall].
        eapply Forall_impl; [exact Hlate|]. apply key_value_line_splittable. }
    assert (Ht : Report.tree_go text
                 = (early,
                    {| USBDevice.name := Py.init (Py.strip h);
                       USBDevice.attr := Report.attrs_of ∅ late |}
                    :: snd (fst (Report.tree_go rest)),
                    snd (Report.tree_go rest))).
    { unfold text. rewrite (tree_go_key_values early _ Hearly).
      cbn [Report.tree_go]. rewrite (tree_go_key_values late rest Hlate).
      rewrite (tree_go_header rest Hrest), Hb, Hh, !app_nil_r. reflexivity. }
    unfold parse_bus.
    destruct (parse_bus_loop_tree (S (length text)) sys (USBBus.__init__ name) text
                _ _ _ ltac:(lia) Hs (or_introl eq_refl) Ht)
      as (text' & Hp & _).
    rewrite Hp. apply parse_bus_loop_queue in Hp. subst text'. unfold text.
    rewrite (from_first_bus_key_values early _ Hearly). cbn [Grammar.from_first_bus].
    rewrite Hb, (from_first_bus_key_values late rest Hlate). reflexivity.
Qed.

Lemma first_child_copies_bus_sample :
  parse_bus USB.__init__ "X Bus" (["A: 1"] ++ "Dev:" :: ["B: 2"] ++ ["Next:"; "C: 3"])
  = Ok (USB.add USB.__init__
          {| USBBus.name := "X Bus"; USBBus.attr := <["A" := "1"]> ∅;
             USBBus.list :=
               [{| USBDevice.name := "X Bus"; USBDevice.attr := <["A" := "1"]> ∅ |};
                {| USBDevice.name := "Dev"; USBDevice.attr := <["B" := "2"]> ∅ |};
                {| USBDevice.name := "Next"; USBDevice.attr := <["C" := "3"]> ∅ |}] |},
        []).
Proof.
  apply (proj2 first_child_copies_bus USB.__init__ "X Bus"
           ["A: 1"] "Dev:" ["B: 2"] ["Next:"; "C: 3"]);
    repeat constructor.
Defined.

(** C9 as stated fails: in the report [late_key] the line ["B: 2"] follows
    the first device header of the bus; it is set on that device, and the bus
    has no ["B"] at all. *)
Lemma late_key_counterexample :
  parse late_key = Ok (parsed late_key, [])
  /\ map (fun bus => USBBus.attr bus !! "B") (USB.list (parsed late_key)) = [None]
  /\ map (fun bus => map (fun dev => (USBDevice.name dev, USBDevice.attr dev !! "B"))
                       (USBBus.list bus))
       (USB.list (parsed late_key))
     = [[("X Bus", None); ("Dev", Some "2")]]
  /\ map (fun bus => USBBus.attr bus !! "A") (USB.list (parsed late_key)) = [Some "1"].
Proof. vm_compute. repeat split; reflexivity. Qed.
